(** * vCard construction of the QR contact generator (src/app/page.tsx)

    A shallow embedding of the two page variants of the repository:
    the four-field page whose [generateQR] handler fills a fixed vCard
    template, and the ten-field page built around the pure functions
    [escapeValue], [parsePhoneNumbers] and [buildVCard].

    JavaScript strings are sequences of UTF-16 code units; they are
    modelled as lists of code units, each an [N]. *)

From Stdlib Require Import List NArith Ascii String Bool Arith Lia.
Import ListNotations.

Local Open Scope N_scope.
Local Open Scope list_scope.

(* ================================================================= *)
(** ** The fragment of the JavaScript string library that the page uses *)

Module JS.

(** A UTF-16 code unit and a JavaScript string. *)
Definition char := N.
Definition jsstring := list char.

(** A string literal of the source (ASCII only), as code units. *)
Definition str (s : string) : jsstring :=
  map N_of_ascii (list_ascii_of_string s).

Definition LF : char := 10.
Definition COMMA : char := 44.
Definition SEMICOLON : char := 59.
Definition BACKSLASH : char := 92.

(** Truthiness of a string: every string but the empty one. *)
Definition truthy (s : jsstring) : bool :=
  match s with
  | [] => false
  | _ :: _ => true
  end.

(** [a || b] on strings. *)
Definition orElse (a b : jsstring) : jsstring :=
  if truthy a then a else b.

(** [s.replace(/c/g, by)] for a pattern that is one literal character and
    a replacement text without [$]: every occurrence is replaced, the
    inserted text is not scanned again. *)
Definition replaceAll (c : char) (by_ : jsstring) (s : jsstring) : jsstring :=
  flat_map (fun d => if d =? c then by_ else [d]) s.

(** WhiteSpace and LineTerminator code points, the characters that
    [String.prototype.trim] strips. *)
Definition isWhiteSpace (c : char) : bool :=
  (c =? 9) || (c =? 10) || (c =? 11) || (c =? 12) || (c =? 13) ||
  (c =? 32) || (c =? 160) || (c =? 5760) ||
  ((8192 <=? c) && (c <=? 8202)) ||
  (c =? 8232) || (c =? 8233) || (c =? 8239) || (c =? 8287) ||
  (c =? 12288) || (c =? 65279).

Fixpoint trimStart (s : jsstring) : jsstring :=
  match s with
  | [] => []
  | c :: t => if isWhiteSpace c then trimStart t else s
  end.

Definition trimEnd (s : jsstring) : jsstring :=
  rev (trimStart (rev s)).

Definition trim (s : jsstring) : jsstring :=
  trimEnd (trimStart s).

(** [s.split(re)] for a pattern [re] that is one or more characters of a
    class [sep] (here [/[\n,;]+/]).  The scan of RegExp.prototype[@@split]:
    [piece] is the text since the end of the last match; a match starts at
    the first separator met and, being greedy, runs to the end of the run
    of separators ([inMatch]); the text left at the end is the last piece.
    The empty string gives one empty piece. *)
Fixpoint splitScan (sep : char -> bool) (inMatch : bool)
         (piece : jsstring) (s : jsstring) : list jsstring :=
  match s with
  | [] => [piece]
  | c :: t =>
      if sep c then
        if inMatch then splitScan sep true [] t
        else piece :: splitScan sep true [] t
      else splitScan sep false (piece ++ [c]) t
  end.

Definition split (sep : char -> bool) (s : jsstring) : list jsstring :=
  splitScan sep false [] s.

(** [a.join(sepText)]. *)
Fixpoint join (sepText : jsstring) (a : list jsstring) : jsstring :=
  match a with
  | [] => []
  | x :: rest =>
      match rest with
      | [] => x
      | _ :: _ => x ++ sepText ++ join sepText rest
      end
  end.

(** [a.push(x)], on the array passed along. *)
Definition push (a : list jsstring) (x : jsstring) : list jsstring :=
  a ++ [x].

(** [a.forEach(f)] for a callback that updates a state [S]. *)
Definition forEach {S : Type} (a : list jsstring) (f : S -> jsstring -> S)
           (st : S) : S :=
  fold_left f a st.

(** [s.toUpperCase()] on the ASCII letters (the page applies it to the
    address types only). *)
Definition toUpperCase (s : jsstring) : jsstring :=
  map (fun c => if (97 <=? c) && (c <=? 122) then c - 32 else c) s.

(** [a === b] on strings. *)
Fixpoint strictEq (a b : jsstring) : bool :=
  match a, b with
  | [], [] => true
  | x :: a', y :: b' => (x =? y) && strictEq a' b'
  | _, _ => false
  end.

End JS.

Import JS.

(* ================================================================= *)
(** ** The vCard builder of the ten-field page *)

Module VCard.

Inductive AddressType := home | work | other.

Definition addressTypeText (t : AddressType) : jsstring :=
  match t with
  | home => str "home"
  | work => str "work"
  | other => str "other"
  end.

Record BuildVCardArgs := mkArgs {
  fullName : jsstring;
  email : jsstring;
  phones : list jsstring;
  address : jsstring;
  addressType : AddressType;
  company : jsstring;
  jobTitle : jsstring;
  birthday : jsstring;
  website : jsstring;
  notes : jsstring
}.

(** Four global replacements, one after the other; the backslash goes
    first. *)
Definition escapeValue (value : jsstring) : jsstring :=
  replaceAll COMMA (str "\,")
    (replaceAll SEMICOLON (str "\;")
       (replaceAll LF (str "\n")
          (replaceAll BACKSLASH (str "\\") value))).

(** The character class of [/[\n,;]+/]. *)
Definition isSeparator (c : char) : bool :=
  (c =? LF) || (c =? COMMA) || (c =? SEMICOLON).

Definition parsePhoneNumbers (value : jsstring) : list jsstring :=
  filter truthy (map trim (split isSeparator value)).

Definition typePrefix (t : AddressType) : jsstring :=
  match t with
  | other => []
  | _ => str ";TYPE=" ++ toUpperCase (addressTypeText t)
  end.

(** The array [lines] as it stands when its length is tested. *)
Definition vcardLines (a : BuildVCardArgs) : list jsstring :=
  let lines := [str "BEGIN:VCARD"; str "VERSION:3.0"] in
  let lines :=
    if truthy (fullName a)
    then push lines (str "FN:" ++ escapeValue (fullName a)) else lines in
  let lines :=
    if truthy (company a)
    then push lines (str "ORG:" ++ escapeValue (company a)) else lines in
  let lines :=
    if truthy (jobTitle a)
    then push lines (str "TITLE:" ++ escapeValue (jobTitle a)) else lines in
  let lines :=
    forEach (phones a)
      (fun lines number =>
         push lines (str "TEL;TYPE=CELL:" ++ escapeValue number))
      lines in
  let lines :=
    if truthy (email a)
    then push lines (str "EMAIL;TYPE=INTERNET:" ++ escapeValue (email a))
    else lines in
  let lines :=
    if truthy (address a)
    then push lines (str "ADR" ++ typePrefix (addressType a) ++ str ":;;"
                       ++ escapeValue (address a) ++ str ";;;;")
    else lines in
  let lines :=
    if truthy (birthday a)
    then push lines (str "BDAY:" ++ birthday a) else lines in
  let lines :=
    if truthy (website a)
    then push lines (str "URL:" ++ escapeValue (website a)) else lines in
  let lines :=
    if truthy (notes a)
    then push lines (str "NOTE:" ++ escapeValue (notes a)) else lines in
  lines.

Definition buildVCard (a : BuildVCardArgs) : jsstring :=
  let lines := vcardLines a in
  if Nat.eqb (List.length lines) 2 then []
  else join [LF] (push lines (str "END:VCARD")).

End VCard.

Import VCard.

(* ================================================================= *)
(** ** What a handler does to the browser *)

Module Browser.

Inductive Effect :=
| Alert (message : jsstring)
| ClipboardWrite (text : jsstring)
| ConsoleError (message : jsstring)
| DownloadFile (fileName mime content : jsstring)
| DownloadImage (fileName : jsstring).

(** The one effect that puts a failure in front of the user. *)
Definition isAlert (e : Effect) : bool :=
  match e with
  | Alert _ => true
  | _ => false
  end.

End Browser.

Import Browser.

(* ================================================================= *)
(** ** The four-field page: [generateQR] *)

Module Legacy.

Record State := mkState {
  name : jsstring;
  phone : jsstring;
  address : jsstring;
  birthday : jsstring;
  qrValue : jsstring
}.

Definition setQrValue (st : State) (v : jsstring) : State :=
  mkState (name st) (phone st) (address st) (birthday st) v.

(** The template literal, before [.replace] and [.trim]. *)
Definition template (st : State) : jsstring :=
  str "BEGIN:VCARD" ++ [LF] ++
  str "VERSION:3.0" ++ [LF] ++
  str "FN:" ++ orElse (name st) [] ++ [LF] ++
  str "TEL:" ++ orElse (phone st) [] ++ [LF] ++
  str "ADR:;;" ++ orElse (address st) [] ++ str ";;;;" ++ [LF] ++
  str "BDAY:" ++ orElse (birthday st) [] ++ [LF] ++
  str "END:VCARD".

Definition allBlank (st : State) : bool :=
  negb (truthy (name st)) && negb (truthy (phone st)) &&
  negb (truthy (address st)) && negb (truthy (birthday st)).

Definition generateQR (st : State) : State * list Effect :=
  if allBlank st then
    (st, [Alert (str "Please fill in at least one field.")])
  else
    let vCard := replaceAll LF [LF] (template st) in
    (setQrValue st (trim vCard), []).

(** [{qrValue && (<QRCode value={qrValue} />)}] *)
Definition qrShown (st : State) : bool := truthy (qrValue st).

(** [useState("")], five times. *)
Definition initialState : State := mkState [] [] [] [] [].

(** The [onChange] handlers of the four inputs. *)
Definition setName (st : State) (v : jsstring) : State :=
  mkState v (phone st) (address st) (birthday st) (qrValue st).

Definition setPhone (st : State) (v : jsstring) : State :=
  mkState (name st) v (address st) (birthday st) (qrValue st).

Definition setAddress (st : State) (v : jsstring) : State :=
  mkState (name st) (phone st) v (birthday st) (qrValue st).

Definition setBirthday (st : State) (v : jsstring) : State :=
  mkState (name st) (phone st) (address st) v (qrValue st).

End Legacy.

(* ================================================================= *)
(** ** The ten-field page: derived values and export handlers *)

Module Page.

Record State := mkState {
  fullName : jsstring;
  email : jsstring;
  phoneInput : jsstring;
  address : jsstring;
  addressType : AddressType;
  company : jsstring;
  jobTitle : jsstring;
  birthday : jsstring;
  website : jsstring;
  notes : jsstring;
  showMore : bool;
  lastCopiedValue : option jsstring
}.

Definition vCard (st : State) : jsstring :=
  buildVCard
    (mkArgs (fullName st) (email st) (parsePhoneNumbers (phoneInput st))
            (address st) (addressType st) (company st) (jobTitle st)
            (birthday st) (website st) (notes st)).

Definition hasContactInfo (st : State) : bool := truthy (vCard st).

(** What the handlers find in the browser. *)
Inductive Clipboard := NoClipboard | ClipboardAccepts | ClipboardRejects.

Record Env := mkEnv {
  hasNavigator : bool;
  hasWindow : bool;
  clipboard : Clipboard;
  qrSvgFound : bool;
  imageLoads : bool
}.

Definition setLastCopiedValue (st : State) (v : option jsstring) : State :=
  mkState (fullName st) (email st) (phoneInput st) (address st)
          (addressType st) (company st) (jobTitle st) (birthday st)
          (website st) (notes st) (showMore st) v.

Definition handleCopy (env : Env) (st : State) : State * list Effect :=
  if negb (hasContactInfo st) || negb (hasNavigator env) then (st, [])
  else
    match clipboard env with
    | NoClipboard => (setLastCopiedValue st (Some (vCard st)), [])
    | ClipboardAccepts =>
        (setLastCopiedValue st (Some (vCard st)), [ClipboardWrite (vCard st)])
    | ClipboardRejects => (st, [ConsoleError (str "Failed to copy vCard")])
    end.

Definition resetForm (st : State) : State :=
  mkState [] [] [] [] home [] [] [] [] [] false None.

Definition handleDownloadVCard (env : Env) (st : State)
  : State * list Effect :=
  if negb (hasContactInfo st) || negb (hasWindow env) then (st, [])
  else
    (st, [DownloadFile (orElse (fullName st) (str "contact") ++ str ".vcf")
                       (str "text/vcard") (vCard st)]).

Definition handleDownloadQr (env : Env) (st : State)
  : State * list Effect :=
  if negb (hasContactInfo st) || negb (hasWindow env) then (st, [])
  else if negb (qrSvgFound env) then (st, [])
  else if imageLoads env then
    (st, [DownloadImage
            (orElse (fullName st) (str "contact") ++ str "-qr.png")])
  else (st, []).

(** The view: the QR code is rendered, and the three export buttons are
    enabled, exactly when [hasContactInfo]. *)
Definition qrRendered (st : State) : bool := hasContactInfo st.
Definition exportDisabled (st : State) : bool := negb (hasContactInfo st).

Definition allBlank (st : State) : bool :=
  negb (truthy (fullName st)) && negb (truthy (email st)) &&
  negb (truthy (phoneInput st)) && negb (truthy (address st)) &&
  negb (truthy (company st)) && negb (truthy (jobTitle st)) &&
  negb (truthy (birthday st)) && negb (truthy (website st)) &&
  negb (truthy (notes st)).

(** The [useState] defaults of the component. *)
Definition initialState : State :=
  mkState [] [] [] [] home [] [] [] [] [] false None.

(** [hasContactInfo && lastCopiedValue === vCard] *)
Definition hasCopiedCurrent (st : State) : bool :=
  hasContactInfo st &&
  match lastCopiedValue st with
  | Some v => strictEq v (vCard st)
  | None => false
  end.

(** The text of the copy button. *)
Definition copyLabel (st : State) : jsstring :=
  if hasCopiedCurrent st then str "Copied!" else str "Copy vCard".

End Page.

(* ================================================================= *)
(** ** Vocabulary of the specification *)

(** The text lines of an output: the pieces between line feeds. *)
Fixpoint textLines (s : jsstring) : list jsstring :=
  match s with
  | [] => [[]]
  | c :: t =>
      if c =? LF then [] :: textLines t
      else
        match textLines t with
        | h :: r => (c :: h) :: r
        | [] => [[c]]
        end
  end.

Fixpoint startsWith (p s : jsstring) : bool :=
  match p, s with
  | [], _ => true
  | _ :: _, [] => false
  | a :: p', b :: s' => (a =? b) && startsWith p' s'
  end.

(** The text holds no line feed. *)
Definition noLF (s : jsstring) : bool := forallb (fun d => negb (d =? LF)) s.

(** The vCard escaping rule, character by character. *)
Definition escapeChar (c : char) : jsstring :=
  if c =? BACKSLASH then [BACKSLASH; BACKSLASH]
  else if c =? LF then [BACKSLASH; 110]
  else if c =? SEMICOLON then [BACKSLASH; SEMICOLON]
  else if c =? COMMA then [BACKSLASH; COMMA]
  else [c].

(** The decoder: a backslash announces an escaped character. *)
Fixpoint unescapeValue (s : jsstring) : jsstring :=
  match s with
  | [] => []
  | c :: t =>
      if c =? BACKSLASH then
        match t with
        | [] => [c]
        | d :: u => (if d =? 110 then LF else d) :: unescapeValue u
        end
      else c :: unescapeValue t
  end.

(** The text after the separators that [s] starts with. *)
Fixpoint skipRun (sep : char -> bool) (s : jsstring) : jsstring :=
  match s with
  | [] => []
  | c :: t => if sep c then skipRun sep t else s
  end.

(** The separators that [s] starts with. *)
Fixpoint takeRun (sep : char -> bool) (s : jsstring) : jsstring :=
  match s with
  | [] => []
  | c :: t => if sep c then c :: takeRun sep t else []
  end.

Definition firstChar (s : jsstring) : option char := hd_error s.
Definition lastChar (s : jsstring) : option char := hd_error (rev s).

(** [segs] are the pieces of [s] between maximal runs of separators. *)
Inductive Segments (sep : char -> bool) : jsstring -> list jsstring -> Prop :=
| Segments_last (p : jsstring) :
    forallb (fun c => negb (sep c)) p = true ->
    Segments sep p [p]
| Segments_run (p run t : jsstring) (rest : list jsstring) :
    forallb (fun c => negb (sep c)) p = true ->
    run <> [] ->
    forallb sep run = true ->
    match t with [] => True | c :: _ => sep c = false end ->
    Segments sep t rest ->
    Segments sep (p ++ run ++ t) (p :: rest).

Definition isNil {A : Type} (l : list A) : bool :=
  match l with
  | [] => true
  | _ :: _ => false
  end.

(** At least one field of the record holds something. *)
Definition hasContent (r : BuildVCardArgs) : bool :=
  truthy (fullName r) || truthy (company r) || truthy (jobTitle r) ||
  negb (isNil (phones r)) || truthy (email r) || truthy (address r) ||
  truthy (birthday r) || truthy (website r) || truthy (notes r).

Definition present (v : jsstring) : nat := if truthy v then 1 else 0.

(** How many of the nine fields hold something (the phone list is one
    field). *)
Definition nonEmptyFieldCount (r : BuildVCardArgs) : nat :=
  (present (fullName r) + present (company r) + present (jobTitle r) +
   (if isNil (phones r) then 0 else 1) + present (email r) +
   present (address r) + present (birthday r) + present (website r) +
   present (notes r))%nat.

Definition telLine (number : jsstring) : jsstring :=
  str "TEL;TYPE=CELL:" ++ escapeValue number.

Definition adrLine (t : AddressType) (v : jsstring) : jsstring :=
  str "ADR" ++ typePrefix t ++ str ":;;" ++ escapeValue v ++ str ";;;;".

Definition optLine (v line : jsstring) : list jsstring :=
  if truthy v then [line] else [].

(** The property lines of a record, field by field. *)
Definition fieldLines (r : BuildVCardArgs) : list jsstring :=
  optLine (fullName r) (str "FN:" ++ escapeValue (fullName r)) ++
  optLine (company r) (str "ORG:" ++ escapeValue (company r)) ++
  optLine (jobTitle r) (str "TITLE:" ++ escapeValue (jobTitle r)) ++
  map telLine (phones r) ++
  optLine (email r) (str "EMAIL;TYPE=INTERNET:" ++ escapeValue (email r)) ++
  optLine (address r) (adrLine (addressType r) (address r)) ++
  optLine (birthday r) (str "BDAY:" ++ birthday r) ++
  optLine (website r) (str "URL:" ++ escapeValue (website r)) ++
  optLine (notes r) (str "NOTE:" ++ escapeValue (notes r)).

(** A record with one field set. *)
Definition blank (t : AddressType) : BuildVCardArgs :=
  mkArgs [] [] [] [] t [] [] [] [] [].

Definition withPhones (r : BuildVCardArgs) (ps : list jsstring)
  : BuildVCardArgs :=
  mkArgs (fullName r) (email r) ps (address r) (addressType r) (company r)
         (jobTitle r) (birthday r) (website r) (notes r).

Definition withBirthday (r : BuildVCardArgs) (b : jsstring)
  : BuildVCardArgs :=
  mkArgs (fullName r) (email r) (phones r) (address r) (addressType r)
         (company r) (jobTitle r) b (website r) (notes r).

(** The characters that [escapeValue] rewrites. *)
Definition isSpecial (c : char) : bool :=
  (c =? BACKSLASH) || (c =? LF) || (c =? SEMICOLON) || (c =? COMMA).

(** The character that may follow a backslash in escaped text. *)
Definition isEscapeCode (d : char) : bool :=
  (d =? BACKSLASH) || (d =? 110) || (d =? SEMICOLON) || (d =? COMMA).

(** Escaped text: every backslash starts one of the four escapes, and no
    line feed, semicolon or comma stands outside an escape. *)
Fixpoint wellEscaped (s : jsstring) : bool :=
  match s with
  | [] => true
  | c :: t =>
      if c =? BACKSLASH then
        match t with
        | [] => false
        | d :: u => isEscapeCode d && wellEscaped u
        end
      else negb (isSpecial c) && wellEscaped t
  end.

(** The components of a structured vCard value: the texts between the
    semicolons that no backslash escapes. *)
Fixpoint componentsScan (cur s : jsstring) : list jsstring :=
  match s with
  | [] => [cur]
  | c :: t =>
      if c =? BACKSLASH then
        match t with
        | [] => [cur ++ [c]]
        | d :: u => componentsScan (cur ++ [c; d]) u
        end
      else if c =? SEMICOLON then cur :: componentsScan [] t
      else componentsScan (cur ++ [c]) t
  end.

Definition components (s : jsstring) : list jsstring := componentsScan [] s.

(** The value of a property line: what follows the first [n] characters. *)
Definition lineValue (n : nat) (line : jsstring) : jsstring := skipn n line.

(** [entry] is [piece] without the white space at its two ends: what is
    cut off is white space only, and [entry] neither starts nor ends with
    a white-space character. *)
Definition Trimmed (piece entry : jsstring) : Prop :=
  exists w1 w2,
    piece = w1 ++ entry ++ w2 /\
    forallb isWhiteSpace w1 = true /\
    forallb isWhiteSpace w2 = true /\
    (forall c, firstChar entry = Some c -> isWhiteSpace c = false) /\
    (forall c, lastChar entry = Some c -> isWhiteSpace c = false).

(* ================================================================= *)
(** ** Lemmas on the string primitives *)

Section Replace.

Lemma replaceAll_app (c : char) (by_ s t : jsstring) :
  replaceAll c by_ (s ++ t) = replaceAll c by_ s ++ replaceAll c by_ t.
Proof. unfold replaceAll. apply flat_map_app. Qed.

Lemma replaceAll_cons (c d : char) (by_ s : jsstring) :
  replaceAll c by_ (d :: s) =
  (if d =? c then by_ else [d]) ++ replaceAll c by_ s.
Proof. reflexivity. Qed.

(** Replacing a character by itself changes nothing. *)
Lemma replaceAll_self (c : char) (s : jsstring) :
  replaceAll c [c] s = s.
Proof.
  induction s as [|d s IH]; [reflexivity|].
  rewrite replaceAll_cons, IH.
  destruct (N.eqb_spec d c) as [->|_]; reflexivity.
Qed.

End Replace.

(** The four passes of [escapeValue] amount to one pass that escapes each
    character on its own: the backslashes that the later passes insert are
    never looked at by the first one. *)
Lemma escapeValue_chars (s : jsstring) :
  escapeValue s = flat_map escapeChar s.
Proof.
  unfold escapeValue.
  induction s as [|c s IH]; [reflexivity|].
  rewrite replaceAll_cons, !replaceAll_app, IH. simpl flat_map.
  f_equal. unfold escapeChar.
  destruct (N.eqb_spec c BACKSLASH) as [->|Hb]; [reflexivity|].
  destruct (N.eqb_spec c LF) as [->|Hl]; [reflexivity|].
  destruct (N.eqb_spec c SEMICOLON) as [->|Hs]; [reflexivity|].
  destruct (N.eqb_spec c COMMA) as [->|Hc]; [reflexivity|].
  cbn.
  destruct (N.eqb_spec c LF); [contradiction|]. cbn.
  destruct (N.eqb_spec c SEMICOLON); [contradiction|]. cbn.
  destruct (N.eqb_spec c COMMA); [contradiction|]. reflexivity.
Qed.

Lemma escapeValue_app (s t : jsstring) :
  escapeValue (s ++ t) = escapeValue s ++ escapeValue t.
Proof. rewrite !escapeValue_chars. apply flat_map_app. Qed.

Lemma unescape_escapeChar (c : char) (rest : jsstring) :
  unescapeValue (escapeChar c ++ rest) = c :: unescapeValue rest.
Proof.
  unfold escapeChar.
  destruct (N.eqb_spec c BACKSLASH) as [->|Hb]; [reflexivity|].
  destruct (N.eqb_spec c LF) as [->|Hl]; [reflexivity|].
  destruct (N.eqb_spec c SEMICOLON) as [->|Hs]; [reflexivity|].
  destruct (N.eqb_spec c COMMA) as [->|Hc]; [reflexivity|].
  cbn [app unescapeValue].
  destruct (N.eqb_spec c BACKSLASH); [contradiction|reflexivity].
Qed.

Lemma unescape_escape (s : jsstring) :
  unescapeValue (escapeValue s) = s.
Proof.
  rewrite escapeValue_chars.
  induction s as [|c s IH]; [reflexivity|].
  cbn [flat_map]. rewrite unescape_escapeChar, IH. reflexivity.
Qed.

(** Escaped text holds no line feed, and none of the separators bare. *)
Lemma escapeChar_noLF (c : char) : noLF (escapeChar c) = true.
Proof.
  unfold escapeChar.
  destruct (N.eqb_spec c BACKSLASH) as [->|Hb]; [reflexivity|].
  destruct (N.eqb_spec c LF) as [->|Hl]; [reflexivity|].
  destruct (N.eqb_spec c SEMICOLON) as [->|Hs]; [reflexivity|].
  destruct (N.eqb_spec c COMMA) as [->|Hc]; [reflexivity|].
  cbn. destruct (N.eqb_spec c LF); [contradiction|reflexivity].
Qed.

Lemma noLF_app (s t : jsstring) : noLF (s ++ t) = noLF s && noLF t.
Proof. apply forallb_app. Qed.

Lemma escapeValue_noLF (s : jsstring) : noLF (escapeValue s) = true.
Proof.
  rewrite escapeValue_chars.
  induction s as [|c s IH]; [reflexivity|].
  cbn [flat_map]. rewrite noLF_app, IH, andb_true_r. apply escapeChar_noLF.
Qed.

(* ----------------------------------------------------------------- *)
(** *** Lines of a text *)

Lemma textLines_nonempty (s : jsstring) : textLines s <> [].
Proof.
  destruct s as [|c t]; cbn; [discriminate|].
  destruct (c =? LF); [discriminate|].
  destruct (textLines t); discriminate.
Qed.

Lemma textLines_noLF (s : jsstring) : noLF s = true -> textLines s = [s].
Proof.
  induction s as [|c s IH]; [reflexivity|].
  cbn. destruct (c =? LF); cbn; [discriminate|].
  intros H. rewrite (IH H). reflexivity.
Qed.

Lemma textLines_app_LF (x y : jsstring) :
  textLines (x ++ [LF] ++ y) = textLines x ++ textLines y.
Proof.
  induction x as [|c x IH]; [reflexivity|].
  cbn [app textLines]. cbn [app] in IH. rewrite IH.
  destruct (c =? LF); [reflexivity|].
  destruct (textLines x) as [|h r] eqn:E; [|reflexivity].
  exfalso. exact (textLines_nonempty x E).
Qed.

Lemma textLines_join (x : jsstring) (rest : list jsstring) :
  textLines (join [LF] (x :: rest)) = flat_map textLines (x :: rest).
Proof.
  revert x. induction rest as [|y rest IH]; intros x.
  - cbn. rewrite app_nil_r. reflexivity.
  - change (join [LF] (x :: y :: rest)) with (x ++ [LF] ++ join [LF] (y :: rest)).
    rewrite textLines_app_LF, IH. reflexivity.
Qed.

Lemma flat_map_textLines_noLF (ls : list jsstring) :
  forallb noLF ls = true -> flat_map textLines ls = ls.
Proof.
  induction ls as [|x ls IH]; [reflexivity|].
  cbn. intros H. apply andb_prop in H as [Hx Hls].
  rewrite (textLines_noLF x Hx), (IH Hls). reflexivity.
Qed.

(* ----------------------------------------------------------------- *)
(** *** The builder, field by field *)

Lemma forEach_push (f : jsstring -> jsstring) (a init : list jsstring) :
  forEach a (fun lines x => push lines (f x)) init = init ++ map f a.
Proof.
  unfold forEach, push. revert init.
  induction a as [|x a IH]; intros init; cbn.
  - now rewrite app_nil_r.
  - rewrite IH, <- app_assoc. reflexivity.
Qed.

Lemma vcardLines_fieldLines (r : BuildVCardArgs) :
  vcardLines r = str "BEGIN:VCARD" :: str "VERSION:3.0" :: fieldLines r.
Proof.
  unfold vcardLines, fieldLines, optLine, adrLine.
  rewrite (forEach_push telLine). unfold push.
  destruct (truthy (fullName r)), (truthy (company r)), (truthy (jobTitle r)),
    (truthy (email r)), (truthy (address r)), (truthy (birthday r)),
    (truthy (website r)), (truthy (notes r));
    cbn [app]; rewrite <- ?app_assoc; cbn [app]; rewrite ?app_nil_r;
    reflexivity.
Qed.

Lemma optLine_nil (v line : jsstring) : optLine v line = [] <-> v = [].
Proof. unfold optLine. destruct v; cbn; split; congruence. Qed.

Lemma optLine_length (v line : jsstring) :
  List.length (optLine v line) = present v.
Proof. unfold optLine, present. destruct (truthy v); reflexivity. Qed.

Lemma fieldLines_length (r : BuildVCardArgs) :
  List.length (fieldLines r) =
  (present (fullName r) + present (company r) + present (jobTitle r) +
   List.length (phones r) + present (email r) + present (address r) +
   present (birthday r) + present (website r) + present (notes r))%nat.
Proof.
  unfold fieldLines.
  rewrite !length_app, !optLine_length, length_map. lia.
Qed.

Lemma truthy_false (v : jsstring) : truthy v = false <-> v = [].
Proof. destruct v; cbn; split; congruence. Qed.

Lemma present_zero (v : jsstring) : present v = 0%nat <-> v = [].
Proof. unfold present. destruct v; cbn; split; congruence. Qed.

Lemma fieldLines_nil (r : BuildVCardArgs) :
  fieldLines r = [] <->
  fullName r = [] /\ email r = [] /\ phones r = [] /\ address r = [] /\
  company r = [] /\ jobTitle r = [] /\ birthday r = [] /\ website r = [] /\
  notes r = [].
Proof.
  rewrite <- length_zero_iff_nil, fieldLines_length.
  rewrite <- !present_zero, <- (length_zero_iff_nil (phones r)). lia.
Qed.

(** [buildVCard] in terms of the property lines. *)
Lemma buildVCard_fieldLines (r : BuildVCardArgs) :
  buildVCard r =
  match fieldLines r with
  | [] => []
  | _ :: _ =>
      join [LF] (str "BEGIN:VCARD" :: str "VERSION:3.0" ::
                 fieldLines r ++ [str "END:VCARD"])
  end.
Proof.
  unfold buildVCard, push. rewrite vcardLines_fieldLines.
  destruct (fieldLines r); reflexivity.
Qed.

Lemma join_begins (x : jsstring) (rest : list jsstring) :
  exists tail, join [LF] (x :: rest) = x ++ tail.
Proof.
  destruct rest as [|y rest].
  - exists []. cbn. now rewrite app_nil_r.
  - exists ([LF] ++ join [LF] (y :: rest)). reflexivity.
Qed.

Lemma join_snoc (ls : list jsstring) (x y : jsstring) :
  join [LF] ((x :: ls) ++ [y]) = join [LF] (x :: ls) ++ [LF] ++ y.
Proof.
  revert x. induction ls as [|z ls IH]; intros x; [reflexivity|].
  change (join [LF] ((x :: z :: ls) ++ [y]))
    with (x ++ [LF] ++ join [LF] ((z :: ls) ++ [y])).
  rewrite IH.
  change (join [LF] (x :: z :: ls)) with (x ++ [LF] ++ join [LF] (z :: ls)).
  now rewrite <- !app_assoc.
Qed.

(* ----------------------------------------------------------------- *)
(** *** [trim] *)

Lemma trimStart_suffix (s : jsstring) :
  exists w, s = w ++ trimStart s /\ forallb isWhiteSpace w = true.
Proof.
  induction s as [|c s (w & E & Hw)].
  - exists []. split; reflexivity.
  - cbn [trimStart]. destruct (isWhiteSpace c) eqn:Hc.
    + exists (c :: w). cbn. rewrite Hc, Hw. split; [now f_equal|reflexivity].
    + exists []. split; reflexivity.
Qed.

Lemma trimStart_first (s : jsstring) (c : char) :
  firstChar (trimStart s) = Some c -> isWhiteSpace c = false.
Proof.
  induction s as [|d s IH]; cbn; [discriminate|].
  destruct (isWhiteSpace d) eqn:Hd; [exact IH|].
  cbn. intros [= <-]. exact Hd.
Qed.

Lemma trimStart_blank (s : jsstring) :
  forallb isWhiteSpace s = true -> trimStart s = [].
Proof.
  induction s as [|c s IH]; [reflexivity|].
  cbn. destruct (isWhiteSpace c); cbn; [exact IH|discriminate].
Qed.

(** [trim] cuts a blank prefix and a blank suffix off [s]. *)
Lemma trim_middle (s : jsstring) :
  exists w1 w2, s = w1 ++ trim s ++ w2 /\
                forallb isWhiteSpace w1 = true /\
                forallb isWhiteSpace w2 = true.
Proof.
  destruct (trimStart_suffix s) as (w1 & E1 & H1).
  destruct (trimStart_suffix (rev (trimStart s))) as (w2 & E2 & H2).
  exists w1, (rev w2). repeat split; [|exact H1|].
  - unfold trim, trimEnd.
    rewrite <- rev_app_distr, <- E2, rev_involutive. exact E1.
  - rewrite forallb_forall in *. intros x Hx. apply H2. now apply in_rev.
Qed.

Lemma trim_incl (s : jsstring) (c : char) : In c (trim s) -> In c s.
Proof.
  destruct (trim_middle s) as (w1 & w2 & E & _). intros H.
  rewrite E, !in_app_iff. auto.
Qed.

Lemma trim_last (s : jsstring) (c : char) :
  lastChar (trim s) = Some c -> isWhiteSpace c = false.
Proof.
  unfold lastChar, trim, trimEnd. rewrite rev_involutive.
  apply trimStart_first.
Qed.

Lemma trim_first (s : jsstring) (c : char) :
  firstChar (trim s) = Some c -> isWhiteSpace c = false.
Proof.
  destruct (trimStart_suffix (rev (trimStart s))) as (w & E & _).
  apply (f_equal (@rev char)) in E.
  rewrite rev_involutive, rev_app_distr in E.
  fold (trimEnd (trimStart s)) in E. fold (trim s) in E.
  intros H. apply (trimStart_first s). rewrite E.
  destruct (trim s); [discriminate|exact H].
Qed.

Lemma trim_blank (s : jsstring) :
  forallb isWhiteSpace s = true -> trim s = [].
Proof.
  intros H. unfold trim. rewrite (trimStart_blank s H). reflexivity.
Qed.

(* ----------------------------------------------------------------- *)
(** *** [split] *)

Section Split.

Variable sep : char -> bool.

Lemma splitScan_in_match (s : jsstring) :
  splitScan sep true [] s = split sep (skipRun sep s).
Proof.
  induction s as [|c s IH]; [reflexivity|].
  cbn [splitScan skipRun]. destruct (sep c) eqn:Hc; [exact IH|].
  unfold split. cbn [splitScan]. now rewrite Hc.
Qed.

Lemma splitScan_piece (s piece : jsstring) :
  splitScan sep false piece s =
  match split sep s with
  | h :: r => (piece ++ h) :: r
  | [] => []
  end.
Proof.
  unfold split. revert piece.
  induction s as [|c s IH]; intros piece; cbn [splitScan].
  - now rewrite app_nil_r.
  - destruct (sep c); [now rewrite app_nil_r|].
    rewrite (IH (piece ++ [c])), (IH ([] ++ [c])).
    destruct (splitScan sep false [] s); [reflexivity|].
    now rewrite <- app_assoc.
Qed.

Lemma split_nil : split sep [] = [[]].
Proof. reflexivity. Qed.

Lemma split_separator (c : char) (t : jsstring) :
  sep c = true -> split sep (c :: t) = [] :: split sep (skipRun sep t).
Proof.
  intros Hc. unfold split at 1. cbn [splitScan]. rewrite Hc.
  now rewrite splitScan_in_match.
Qed.

Lemma split_other (c : char) (t : jsstring) :
  sep c = false ->
  split sep (c :: t) =
  match split sep t with
  | h :: r => (c :: h) :: r
  | [] => []
  end.
Proof.
  intros Hc. unfold split at 1. cbn [splitScan]. rewrite Hc.
  apply splitScan_piece.
Qed.

Lemma takeRun_skipRun (s : jsstring) : takeRun sep s ++ skipRun sep s = s.
Proof.
  induction s as [|c s IH]; [reflexivity|].
  cbn. destruct (sep c); [cbn; now rewrite IH|reflexivity].
Qed.

Lemma takeRun_all (s : jsstring) : forallb sep (takeRun sep s) = true.
Proof.
  induction s as [|c s IH]; [reflexivity|].
  cbn. destruct (sep c) eqn:Hc; [cbn; now rewrite Hc|reflexivity].
Qed.

Lemma skipRun_first (s : jsstring) :
  match skipRun sep s with [] => True | c :: _ => sep c = false end.
Proof.
  induction s as [|c s IH]; [exact I|].
  cbn. destruct (sep c) eqn:Hc; [exact IH|exact Hc].
Qed.

Lemma skipRun_length (s : jsstring) :
  (List.length (skipRun sep s) <= List.length s)%nat.
Proof.
  induction s as [|c s IH]; [reflexivity|].
  cbn. destruct (sep c); cbn; lia.
Qed.

(** The pieces that [split] returns are the segments of the text. *)
Lemma split_Segments_bounded (n : nat) :
  forall s, (List.length s <= n)%nat -> Segments sep s (split sep s).
Proof.
  induction n as [|n IH]; intros s Hn.
  - destruct s; [|cbn in Hn; lia]. apply (Segments_last sep []). reflexivity.
  - destruct s as [|c t]; [apply (Segments_last sep []); reflexivity|].
    cbn in Hn. destruct (sep c) eqn:Hc.
    + rewrite (split_separator c t Hc).
      pose proof (skipRun_length t) as Hl.
      assert (E : c :: t = [] ++ (c :: takeRun sep t) ++ skipRun sep t)
        by (cbn; now rewrite takeRun_skipRun).
      rewrite E at 1. apply Segments_run.
      * reflexivity.
      * discriminate.
      * cbn. now rewrite Hc, takeRun_all.
      * apply skipRun_first.
      * apply IH. lia.
    + rewrite (split_other c t Hc).
      assert (Ht : Segments sep t (split sep t)) by (apply IH; lia).
      inversion Ht as [p Hp E1 E2 | p run t' rest Hp Hrun Hall Hfirst Hrest E1 E2].
      * apply Segments_last. cbn. now rewrite Hc.
      * change (c :: p ++ run ++ t') with ((c :: p) ++ run ++ t').
        apply Segments_run; try assumption. cbn. now rewrite Hc.
Qed.

Lemma split_Segments (s : jsstring) : Segments sep s (split sep s).
Proof. apply (split_Segments_bounded (List.length s)). reflexivity. Qed.

Lemma Segments_pieces (s : jsstring) (segs : list jsstring) :
  Segments sep s segs ->
  Forall (fun p => forallb (fun c => negb (sep c)) p = true
                   /\ forall c, In c p -> In c s) segs.
Proof.
  induction 1 as [p Hp | p run t rest Hp Hrun Hall Hfirst Hrest IH].
  - constructor; [|constructor]. auto.
  - constructor.
    + split; [exact Hp|]. intros c Hc. rewrite in_app_iff. auto.
    + eapply Forall_impl; [|exact IH]. cbn. intros q [Hq Hin].
      split; [exact Hq|]. intros c Hc. rewrite !in_app_iff. auto.
Qed.

End Split.

(* ----------------------------------------------------------------- *)
(** *** [parsePhoneNumbers] *)

Lemma isSeparator_chars (c : char) :
  isSeparator c = false <-> c <> LF /\ c <> COMMA /\ c <> SEMICOLON.
Proof.
  unfold isSeparator. rewrite !orb_false_iff, !N.eqb_neq. tauto.
Qed.

Lemma parsePhoneNumbers_Segments (input : jsstring) :
  exists segs, Segments isSeparator input segs /\
               parsePhoneNumbers input = filter truthy (map trim segs).
Proof.
  exists (split isSeparator input). split; [apply split_Segments|reflexivity].
Qed.

(** An entry is the trimmed text of a piece of the input. *)
Lemma parsePhoneNumbers_entry (input entry : jsstring) :
  In entry (parsePhoneNumbers input) ->
  entry <> [] /\
  exists piece, entry = trim piece /\
                forallb (fun c => negb (isSeparator c)) piece = true /\
                forall c, In c piece -> In c input.
Proof.
  unfold parsePhoneNumbers. rewrite filter_In, in_map_iff.
  intros [(piece & <- & Hin) Ht]. split.
  - intros E. rewrite E in Ht. discriminate.
  - exists piece. split; [reflexivity|].
    pose proof (Segments_pieces _ _ _ (split_Segments isSeparator input)) as H.
    rewrite Forall_forall in H. exact (H piece Hin).
Qed.

Lemma parsePhoneNumbers_blank (input : jsstring) :
  forallb (fun c => isSeparator c || isWhiteSpace c) input = true ->
  parsePhoneNumbers input = [].
Proof.
  intros Hall.
  destruct (parsePhoneNumbers input) as [|entry rest] eqn:E; [reflexivity|].
  exfalso.
  destruct (parsePhoneNumbers_entry input entry) as (Hne & piece & -> & Hp & Hin).
  { rewrite E. now left. }
  apply Hne, trim_blank. rewrite forallb_forall in *.
  intros c Hc. specialize (Hp c Hc). specialize (Hall c (Hin c Hc)).
  destruct (isSeparator c); [discriminate|exact Hall].
Qed.

(* ----------------------------------------------------------------- *)
(** *** Lines by property name *)

Lemma filter_optLine (p v line : jsstring) :
  filter (startsWith p) (optLine v line) =
  if startsWith p line then optLine v line else [].
Proof.
  unfold optLine. destruct (truthy v); cbn; destruct (startsWith p line);
    reflexivity.
Qed.

Lemma filter_telLine_all (ps : list jsstring) :
  filter (startsWith (str "TEL;TYPE=CELL:")) (map telLine ps) = map telLine ps.
Proof.
  induction ps as [|n ps IH]; [reflexivity|].
  cbn [map filter]. rewrite IH.
  change (startsWith (str "TEL;TYPE=CELL:") (telLine n)) with true.
  reflexivity.
Qed.

Lemma filter_telLine_none (p : jsstring) (ps : list jsstring) :
  (forall n, startsWith p (telLine n) = false) ->
  filter (startsWith p) (map telLine ps) = [].
Proof.
  intros H. induction ps as [|n ps IH]; [reflexivity|].
  cbn [map filter]. now rewrite H, IH.
Qed.

(** Decide every [startsWith] test that the literal prefixes settle. *)
Ltac settle_prefixes :=
  repeat match goal with
    | |- context [startsWith ?p ?l] =>
        let b := eval vm_compute in (startsWith p l) in
        match b with
        | true => change (startsWith p l) with true
        | false => change (startsWith p l) with false
        end
    end.

(** The lines of [vcardLines] that carry a given property name: those of
    the property lines, the two header lines carrying none of the names. *)
Ltac lines_of_property :=
  rewrite vcardLines_fieldLines;
  unfold fieldLines, adrLine;
  cbn [filter]; settle_prefixes;
  rewrite !filter_app, !filter_optLine; settle_prefixes;
  first [ rewrite filter_telLine_all
        | rewrite filter_telLine_none by (intros; reflexivity) ];
  cbn [app]; rewrite ?app_nil_r; reflexivity.

Lemma lines_FN (r : BuildVCardArgs) :
  filter (startsWith (str "FN:")) (vcardLines r) =
  optLine (fullName r) (str "FN:" ++ escapeValue (fullName r)).
Proof. lines_of_property. Qed.

Lemma lines_ORG (r : BuildVCardArgs) :
  filter (startsWith (str "ORG:")) (vcardLines r) =
  optLine (company r) (str "ORG:" ++ escapeValue (company r)).
Proof. lines_of_property. Qed.

Lemma lines_TITLE (r : BuildVCardArgs) :
  filter (startsWith (str "TITLE:")) (vcardLines r) =
  optLine (jobTitle r) (str "TITLE:" ++ escapeValue (jobTitle r)).
Proof. lines_of_property. Qed.

Lemma lines_TEL (r : BuildVCardArgs) :
  filter (startsWith (str "TEL;TYPE=CELL:")) (vcardLines r) =
  map telLine (phones r).
Proof. lines_of_property. Qed.

Lemma lines_EMAIL (r : BuildVCardArgs) :
  filter (startsWith (str "EMAIL;TYPE=INTERNET:")) (vcardLines r) =
  optLine (email r) (str "EMAIL;TYPE=INTERNET:" ++ escapeValue (email r)).
Proof. lines_of_property. Qed.

Lemma lines_ADR (r : BuildVCardArgs) :
  filter (startsWith (str "ADR")) (vcardLines r) =
  optLine (address r) (adrLine (addressType r) (address r)).
Proof. lines_of_property. Qed.

Lemma lines_BDAY (r : BuildVCardArgs) :
  filter (startsWith (str "BDAY:")) (vcardLines r) =
  optLine (birthday r) (str "BDAY:" ++ birthday r).
Proof. lines_of_property. Qed.

Lemma lines_URL (r : BuildVCardArgs) :
  filter (startsWith (str "URL:")) (vcardLines r) =
  optLine (website r) (str "URL:" ++ escapeValue (website r)).
Proof. lines_of_property. Qed.

Lemma lines_NOTE (r : BuildVCardArgs) :
  filter (startsWith (str "NOTE:")) (vcardLines r) =
  optLine (notes r) (str "NOTE:" ++ escapeValue (notes r)).
Proof. lines_of_property. Qed.

(* ----------------------------------------------------------------- *)
(** *** The output as text lines *)

Lemma optLine_noLF (v line : jsstring) :
  noLF line = true -> forallb noLF (optLine v line) = true.
Proof.
  intros H. unfold optLine. destruct (truthy v); cbn; [now rewrite H|reflexivity].
Qed.

Lemma typePrefix_noLF (t : AddressType) : noLF (typePrefix t) = true.
Proof. destruct t; reflexivity. Qed.

Lemma prefixed_noLF (p v : jsstring) :
  noLF p = true -> noLF (p ++ escapeValue v) = true.
Proof. intros H. now rewrite noLF_app, H, escapeValue_noLF. Qed.

Lemma telLines_noLF (ps : list jsstring) :
  forallb noLF (map telLine ps) = true.
Proof.
  induction ps as [|n ps IH]; [reflexivity|].
  cbn [map forallb]. rewrite IH, andb_true_r.
  now apply prefixed_noLF.
Qed.

Lemma adrLine_noLF (t : AddressType) (v : jsstring) :
  noLF (adrLine t v) = true.
Proof.
  unfold adrLine.
  now rewrite !noLF_app, typePrefix_noLF, escapeValue_noLF.
Qed.

(** Escaping keeps every property line on one text line; the birthday,
    inserted as it is, has to be free of line feeds itself. *)
Lemma fieldLines_noLF (r : BuildVCardArgs) :
  noLF (birthday r) = true -> forallb noLF (fieldLines r) = true.
Proof.
  intros Hb. unfold fieldLines.
  rewrite !forallb_app, telLines_noLF.
  rewrite !optLine_noLF; try reflexivity;
    first [ now apply prefixed_noLF | apply adrLine_noLF | idtac ].
  now rewrite noLF_app, Hb.
Qed.

Lemma textLines_buildVCard_gen (r : BuildVCardArgs) :
  fieldLines r <> [] ->
  textLines (buildVCard r) =
  str "BEGIN:VCARD" :: str "VERSION:3.0" ::
  flat_map textLines (fieldLines r) ++ [str "END:VCARD"].
Proof.
  intros Hne. rewrite buildVCard_fieldLines.
  destruct (fieldLines r) as [|l ls] eqn:E; [contradiction|].
  rewrite textLines_join.
  change (flat_map textLines
            (str "BEGIN:VCARD" :: str "VERSION:3.0" :: (l :: ls) ++ [str "END:VCARD"]))
    with (textLines (str "BEGIN:VCARD") ++ textLines (str "VERSION:3.0") ++
          flat_map textLines ((l :: ls) ++ [str "END:VCARD"])).
  rewrite flat_map_app.
  change (flat_map textLines [str "END:VCARD"]) with [str "END:VCARD"].
  reflexivity.
Qed.

Lemma textLines_buildVCard (r : BuildVCardArgs) :
  noLF (birthday r) = true ->
  fieldLines r <> [] ->
  textLines (buildVCard r) =
  str "BEGIN:VCARD" :: str "VERSION:3.0" :: fieldLines r ++ [str "END:VCARD"].
Proof.
  intros Hb Hne.
  rewrite (textLines_buildVCard_gen r Hne).
  now rewrite (flat_map_textLines_noLF _ (fieldLines_noLF r Hb)).
Qed.

Lemma hasContent_fieldLines (r : BuildVCardArgs) :
  hasContent r = true -> fieldLines r <> [].
Proof.
  intros H E. apply fieldLines_nil in E.
  destruct E as (E1 & E2 & E3 & E4 & E5 & E6 & E7 & E8 & E9).
  unfold hasContent in H.
  rewrite E1, E2, E3, E4, E5, E6, E7, E8, E9 in H. discriminate.
Qed.

(* ----------------------------------------------------------------- *)
(** *** The four-field page *)

Lemma trimStart_kept (c : char) (s : jsstring) :
  isWhiteSpace c = false -> trimStart (c :: s) = c :: s.
Proof. intros H. cbn. now rewrite H. Qed.

Lemma trimEnd_kept (s : jsstring) (c : char) :
  isWhiteSpace c = false -> trimEnd (s ++ [c]) = s ++ [c].
Proof.
  intros H. unfold trimEnd. rewrite rev_app_distr. cbn [rev app].
  rewrite (trimStart_kept c _ H).
  change (c :: rev s) with ([c] ++ rev s).
  now rewrite rev_app_distr, rev_involutive.
Qed.

(** Neither [.replace(/\n/g, "\n")] nor [.trim()] changes the template. *)
Lemma Legacy_template_kept (st : Legacy.State) :
  trim (replaceAll LF [LF] (Legacy.template st)) = Legacy.template st.
Proof.
  rewrite replaceAll_self. unfold trim.
  assert (E1 : exists t, Legacy.template st = 66 :: t) by (eexists; reflexivity).
  destruct E1 as (t & E1).
  assert (E2 : exists u, Legacy.template st = u ++ [68]).
  { unfold Legacy.template.
    exists (str "BEGIN:VCARD" ++ [LF] ++ str "VERSION:3.0" ++ [LF] ++
            str "FN:" ++ orElse (Legacy.name st) [] ++ [LF] ++
            str "TEL:" ++ orElse (Legacy.phone st) [] ++ [LF] ++
            str "ADR:;;" ++ orElse (Legacy.address st) [] ++ str ";;;;" ++ [LF] ++
            str "BDAY:" ++ orElse (Legacy.birthday st) [] ++ [LF] ++
            str "END:VCAR").
    rewrite <- !app_assoc. reflexivity. }
  destruct E2 as (u & E2).
  assert (Hs : trimStart (Legacy.template st) = Legacy.template st)
    by (rewrite E1; now apply trimStart_kept).
  rewrite Hs, E2. now apply trimEnd_kept.
Qed.

Lemma Legacy_allBlank_fields (st : Legacy.State) :
  Legacy.allBlank st = true <->
  Legacy.name st = [] /\ Legacy.phone st = [] /\
  Legacy.address st = [] /\ Legacy.birthday st = [].
Proof.
  unfold Legacy.allBlank.
  rewrite !andb_true_iff, !negb_true_iff, !truthy_false. tauto.
Qed.

Lemma Legacy_generateQR_filled (st : Legacy.State) :
  Legacy.allBlank st = false ->
  Legacy.generateQR st = (Legacy.setQrValue st (Legacy.template st), []).
Proof.
  intros H. unfold Legacy.generateQR. rewrite H.
  cbv zeta. now rewrite Legacy_template_kept.
Qed.

(* ----------------------------------------------------------------- *)
(** *** The returned text, line by line *)

Lemma hasContent_false (r : BuildVCardArgs) :
  hasContent r = false -> fieldLines r = [].
Proof.
  intros H. apply fieldLines_nil. unfold hasContent in H.
  rewrite !orb_false_iff, negb_false_iff, !truthy_false in H.
  destruct (phones r); [tauto|].
  destruct H as [[[[[[_ H] _] _] _] _] _]. discriminate H.
Qed.

Lemma buildVCard_hasContent (r : BuildVCardArgs) :
  buildVCard r =
  if hasContent r then join [LF] (vcardLines r ++ [str "END:VCARD"]) else [].
Proof.
  destruct (hasContent r) eqn:H.
  - apply hasContent_fieldLines in H.
    unfold buildVCard, push. rewrite vcardLines_fieldLines.
    destruct (fieldLines r); [contradiction|reflexivity].
  - rewrite buildVCard_fieldLines, (hasContent_false r H). reflexivity.
Qed.

Lemma textLines_buildVCard_all (r : BuildVCardArgs) :
  noLF (birthday r) = true ->
  textLines (buildVCard r) =
  if hasContent r then vcardLines r ++ [str "END:VCARD"] else [[]].
Proof.
  intros Hb. destruct (hasContent r) eqn:H.
  - rewrite vcardLines_fieldLines.
    apply textLines_buildVCard; [exact Hb|now apply hasContent_fieldLines].
  - rewrite buildVCard_fieldLines, (hasContent_false r H). reflexivity.
Qed.

(** The text lines that carry a property name are the entries of [lines]
    that carry it. *)
Lemma filter_textLines_buildVCard (p : jsstring) (r : BuildVCardArgs) :
  startsWith p [] = false ->
  startsWith p (str "BEGIN:VCARD") = false ->
  startsWith p (str "VERSION:3.0") = false ->
  startsWith p (str "END:VCARD") = false ->
  noLF (birthday r) = true ->
  filter (startsWith p) (textLines (buildVCard r)) =
  filter (startsWith p) (vcardLines r).
Proof.
  intros H0 H1 H2 H3 Hb. rewrite (textLines_buildVCard_all r Hb).
  destruct (hasContent r) eqn:H.
  - rewrite filter_app. cbn [filter]. rewrite H3. apply app_nil_r.
  - rewrite vcardLines_fieldLines, (hasContent_false r H).
    cbn [filter]. now rewrite H0, H1, H2.
Qed.

Lemma trim_Trimmed (s : jsstring) : Trimmed s (trim s).
Proof.
  destruct (trim_middle s) as (w1 & w2 & E & H1 & H2).
  exists w1, w2. repeat split; try assumption.
  - apply trim_first.
  - apply trim_last.
Qed.

Lemma Forall2_Trimmed (pieces : list jsstring) :
  Forall2 Trimmed pieces (map trim pieces).
Proof.
  induction pieces as [|p pieces IH]; constructor;
    [apply trim_Trimmed|exact IH].
Qed.

Lemma flat_map_textLines_optLine (p v : jsstring) :
  noLF p = true ->
  flat_map textLines (optLine v (p ++ escapeValue v)) =
  optLine v (p ++ escapeValue v).
Proof.
  intros H. apply flat_map_textLines_noLF, optLine_noLF.
  now apply prefixed_noLF.
Qed.

Lemma Forall_optLine (P : jsstring -> Prop) (v line : jsstring) :
  P line -> Forall P (optLine v line).
Proof.
  intros H. unfold optLine. destruct (truthy v); repeat constructor. exact H.
Qed.

(** In the returned text the TEL lines of the phone list stand together,
    in order, and no TEL line stands before them. *)
Lemma textLines_tel_block (r : BuildVCardArgs) :
  exists before after,
    textLines (buildVCard r) = before ++ map telLine (phones r) ++ after /\
    Forall (fun line => startsWith (str "TEL;TYPE=CELL:") line = false) before.
Proof.
  destruct (fieldLines r) as [|l ls] eqn:E.
  - exists [[]], [].
    rewrite buildVCard_fieldLines, E.
    apply fieldLines_nil in E. destruct E as (_ & _ & -> & _).
    split; [reflexivity|]. repeat constructor.
  - assert (Hne : fieldLines r <> []) by (rewrite E; discriminate).
    rewrite (textLines_buildVCard_gen r Hne). unfold fieldLines.
    rewrite !flat_map_app.
    rewrite !flat_map_textLines_optLine by reflexivity.
    rewrite (flat_map_textLines_noLF _ (telLines_noLF (phones r))).
    exists (str "BEGIN:VCARD" :: str "VERSION:3.0" ::
            optLine (fullName r) (str "FN:" ++ escapeValue (fullName r)) ++
            optLine (company r) (str "ORG:" ++ escapeValue (company r)) ++
            optLine (jobTitle r) (str "TITLE:" ++ escapeValue (jobTitle r))).
    eexists. split.
    + cbn [app]. rewrite <- !app_assoc. reflexivity.
    + repeat constructor.
      rewrite !Forall_app. repeat split; apply Forall_optLine; reflexivity.
Qed.

(* ================================================================= *)
(** ** The functions at work *)

Example escapeValue_example :
  escapeValue (str "Smith, J; c:\dir") = str "Smith\, J\; c:\\dir".
Proof. reflexivity. Qed.

Example escapeValue_newline :
  escapeValue (str "a" ++ [LF] ++ str "b") = str "a\nb".
Proof. reflexivity. Qed.

Example split_example :
  split isSeparator (str ",a,;b c;") = [[]; str "a"; str "b c"; []].
Proof. reflexivity. Qed.

Example parsePhoneNumbers_placeholder :
  parsePhoneNumbers (str "+84 907 741 147" ++ [LF] ++ str " +1 408 592 1508 ,") =
  [str "+84 907 741 147"; str "+1 408 592 1508"].
Proof. reflexivity. Qed.

Example buildVCard_example :
  buildVCard (mkArgs (str "Ada Lovelace") (str "ada@example.com")
                     [str "+84 907 741 147"] (str "123 Main St, City") home
                     [] [] [] [] []) =
  join [LF] [str "BEGIN:VCARD"; str "VERSION:3.0"; str "FN:Ada Lovelace";
             str "TEL;TYPE=CELL:+84 907 741 147";
             str "EMAIL;TYPE=INTERNET:ada@example.com";
             str "ADR;TYPE=HOME:;;123 Main St\, City;;;;"; str "END:VCARD"].
Proof. reflexivity. Qed.

(* ================================================================= *)
(** ** Escaping *)

(** C6: the escaping is losslessly reversible: [unescapeValue] decodes what
    [escapeValue] produced, for every string, and so [escapeValue] is
    injective. *)
Theorem escapeValue_reversible :
  (forall s, unescapeValue (escapeValue s) = s) /\
  (forall s t, escapeValue s = escapeValue t -> s = t).
Proof.
  split; [exact unescape_escape|].
  intros s t H.
  rewrite <- (unescape_escape s), <- (unescape_escape t), H. reflexivity.
Qed.

Lemma escapeValue_reversible_witness :
  unescapeValue (escapeValue (str "a\b;c,d")) = str "a\b;c,d" /\
  (escapeValue (str "x;y") = escapeValue (str "x;y") -> str "x;y" = str "x;y").
Proof.
  split.
  - exact (proj1 escapeValue_reversible (str "a\b;c,d")).
  - exact (proj2 escapeValue_reversible (str "x;y") (str "x;y")).
Defined.

(** C1, at the input where it fails: a birthday that holds a semicolon
    reaches the output as it is, although [escapeValue] would have put a
    backslash before the semicolon, as it does in the name of the same
    record. *)
Theorem bday_inserted_raw :
  let r := mkArgs (str "Ada;L") [] [] [] home [] [] (str "1990-01-01;x") [] [] in
  vcardLines r =
    [str "BEGIN:VCARD"; str "VERSION:3.0"; str "FN:Ada\;L";
     str "BDAY:1990-01-01;x"] /\
  escapeValue (birthday r) = str "1990-01-01\;x" /\
  buildVCard r =
    join [LF] [str "BEGIN:VCARD"; str "VERSION:3.0"; str "FN:Ada\;L";
               str "BDAY:1990-01-01;x"; str "END:VCARD"].
Proof. cbv zeta. repeat split; vm_compute; reflexivity. Qed.

(* ================================================================= *)
(** ** The builder *)

(** C3: for the empty record (every string field empty, no phone number),
    whatever its address type, [buildVCard] returns the empty string. *)
Theorem buildVCard_empty_record (t : AddressType) :
  buildVCard (mkArgs [] [] [] [] t [] [] [] [] []) = [].
Proof. reflexivity. Qed.

(** C4, as stated, fails in two places.  On the four-field page
    [generateQR] fills a fixed template: with only a name entered, the
    empty phone, address and birthday still get their TEL, ADR and BDAY
    lines.  And a birthday, inserted as it is, brings its own lines along:
    a record without a name can come out with an FN line. *)
Lemma line_for_empty_field :
  (let st := Legacy.mkState (str "Ada") [] [] [] [] in
   Legacy.phone st = [] /\ Legacy.address st = [] /\ Legacy.birthday st = [] /\
   textLines (Legacy.qrValue (fst (Legacy.generateQR st))) =
     [str "BEGIN:VCARD"; str "VERSION:3.0"; str "FN:Ada"; str "TEL:";
      str "ADR:;;;;;;"; str "BDAY:"; str "END:VCARD"]) /\
  (let r := mkArgs [] [] [] [] home [] []
                   (str "1990-01-01" ++ [LF] ++ str "FN:Mallory") [] [] in
   fullName r = [] /\
   textLines (buildVCard r) =
     [str "BEGIN:VCARD"; str "VERSION:3.0"; str "BDAY:1990-01-01";
      str "FN:Mallory"; str "END:VCARD"]).
Proof. cbv zeta. repeat split; vm_compute; reflexivity. Qed.

(** C4, amended: for every record whose birthday holds no line feed, the
    text that [buildVCard] returns is empty when no field holds anything
    and the join of its lines otherwise; among its text lines there is,
    for each of FN, ORG, TITLE, EMAIL;TYPE=INTERNET, ADR, BDAY, URL and
    NOTE, exactly one line when the field is non-empty and none when it is
    empty, and one TEL;TYPE=CELL line per phone number, in order; the only
    other lines are the three framing lines. *)
Theorem buildVCard_line_per_field (r : BuildVCardArgs) :
  noLF (birthday r) = true ->
  buildVCard r =
    (if hasContent r
     then join [LF] (vcardLines r ++ [str "END:VCARD"]) else []) /\
  (hasContent r = true ->
   List.length (textLines (buildVCard r)) =
     (3 + (present (fullName r) + present (company r) + present (jobTitle r) +
           List.length (phones r) + present (email r) + present (address r) +
           present (birthday r) + present (website r) + present (notes r)))%nat) /\
  filter (startsWith (str "FN:")) (textLines (buildVCard r)) =
    (if truthy (fullName r)
     then [str "FN:" ++ escapeValue (fullName r)] else []) /\
  filter (startsWith (str "ORG:")) (textLines (buildVCard r)) =
    (if truthy (company r)
     then [str "ORG:" ++ escapeValue (company r)] else []) /\
  filter (startsWith (str "TITLE:")) (textLines (buildVCard r)) =
    (if truthy (jobTitle r)
     then [str "TITLE:" ++ escapeValue (jobTitle r)] else []) /\
  filter (startsWith (str "TEL;TYPE=CELL:")) (textLines (buildVCard r)) =
    map (fun number => str "TEL;TYPE=CELL:" ++ escapeValue number) (phones r) /\
  filter (startsWith (str "EMAIL;TYPE=INTERNET:")) (textLines (buildVCard r)) =
    (if truthy (email r)
     then [str "EMAIL;TYPE=INTERNET:" ++ escapeValue (email r)] else []) /\
  filter (startsWith (str "ADR")) (textLines (buildVCard r)) =
    (if truthy (address r)
     then [str "ADR" ++ typePrefix (addressType r) ++ str ":;;" ++
           escapeValue (address r) ++ str ";;;;"]
     else []) /\
  filter (startsWith (str "BDAY:")) (textLines (buildVCard r)) =
    (if truthy (birthday r) then [str "BDAY:" ++ birthday r] else []) /\
  filter (startsWith (str "URL:")) (textLines (buildVCard r)) =
    (if truthy (website r)
     then [str "URL:" ++ escapeValue (website r)] else []) /\
  filter (startsWith (str "NOTE:")) (textLines (buildVCard r)) =
    (if truthy (notes r)
     then [str "NOTE:" ++ escapeValue (notes r)] else []).
Proof.
  intros Hb. split; [apply buildVCard_hasContent|]. split.
  - intros Hc. rewrite (textLines_buildVCard_all r Hb), Hc.
    rewrite length_app, vcardLines_fieldLines. cbn [List.length].
    rewrite fieldLines_length. lia.
  - rewrite !filter_textLines_buildVCard by (reflexivity || exact Hb).
    rewrite lines_FN, lines_ORG, lines_TITLE, lines_TEL, lines_EMAIL,
      lines_ADR, lines_BDAY, lines_URL, lines_NOTE.
    repeat split; reflexivity.
Qed.

Lemma buildVCard_line_per_field_witness :
  let r := mkArgs (str "Ada, L") [] [str "1"; str "2"] (str "1 Main St") work
                  [] [] (str "1990-01-01") [] [] in
  buildVCard r = join [LF] (vcardLines r ++ [str "END:VCARD"]) /\
  filter (startsWith (str "TEL;TYPE=CELL:")) (textLines (buildVCard r)) =
    [str "TEL;TYPE=CELL:1"; str "TEL;TYPE=CELL:2"] /\
  filter (startsWith (str "NOTE:")) (textLines (buildVCard r)) = [].
Proof.
  pose (H := buildVCard_line_per_field
               (mkArgs (str "Ada, L") [] [str "1"; str "2"] (str "1 Main St")
                       work [] [] (str "1990-01-01") [] [])
               eq_refl).
  exact (conj (proj1 H)
           (conj (proj1 (proj2 (proj2 (proj2 (proj2 (proj2 H))))))
                 (proj2 (proj2 (proj2 (proj2 (proj2 (proj2 (proj2 (proj2
                    (proj2 (proj2 H)))))))))))).
Defined.

(** C5: the phone input is cut at the runs of newlines, commas and
    semicolons; every piece is trimmed, that is, stripped of the white
    space at its two ends and of nothing else; the entries are the trimmed
    pieces that are not empty.  In the text that the builder returns the
    entries have one TEL;TYPE=CELL line each, standing together in the
    order of the input, with no TEL line before them; for a record that
    holds the phone input only, the text is these lines between the
    framing lines. *)
Theorem phone_input_lines (input : jsstring) (r : BuildVCardArgs) :
  (exists pieces trimmed,
      Segments isSeparator input pieces /\
      Forall2 Trimmed pieces trimmed /\
      parsePhoneNumbers input = filter truthy trimmed) /\
  (exists before after,
      textLines (buildVCard (withPhones r (parsePhoneNumbers input))) =
        before ++
        map (fun entry => str "TEL;TYPE=CELL:" ++ escapeValue entry)
            (parsePhoneNumbers input) ++
        after /\
      Forall (fun line => startsWith (str "TEL;TYPE=CELL:") line = false)
             before) /\
  (forall t,
      textLines
        (buildVCard (mkArgs [] [] (parsePhoneNumbers input) [] t [] [] [] [] [])) =
      match parsePhoneNumbers input with
      | [] => [[]]
      | _ :: _ =>
          str "BEGIN:VCARD" :: str "VERSION:3.0" ::
          map (fun entry => str "TEL;TYPE=CELL:" ++ escapeValue entry)
              (parsePhoneNumbers input) ++
          [str "END:VCARD"]
      end).
Proof.
  split; [|split].
  - exists (split isSeparator input), (map trim (split isSeparator input)).
    split; [apply split_Segments|]. split; [apply Forall2_Trimmed|reflexivity].
  - exact (textLines_tel_block (withPhones r (parsePhoneNumbers input))).
  - intros t. destruct (parsePhoneNumbers input) as [|e es] eqn:E.
    + reflexivity.
    + rewrite textLines_buildVCard; [|reflexivity|].
      * unfold fieldLines, optLine.
        cbn [truthy app VCard.fullName VCard.email VCard.phones VCard.address
             VCard.company VCard.jobTitle VCard.birthday VCard.website
             VCard.notes].
        rewrite app_nil_r. reflexivity.
      * intros H. apply fieldLines_nil in H.
        destruct H as (_ & _ & H & _). discriminate H.
Qed.

(** C7: for every record with at least one non-empty field, the output
    starts with the lines BEGIN:VCARD and VERSION:3.0 and ends with the
    line END:VCARD. *)
Theorem buildVCard_framing (r : BuildVCardArgs) :
  hasContent r = true ->
  (exists body,
      buildVCard r =
      str "BEGIN:VCARD" ++ [LF] ++ str "VERSION:3.0" ++ [LF] ++
      body ++ [LF] ++ str "END:VCARD") /\
  (exists middle,
      middle <> [] /\
      textLines (buildVCard r) =
      str "BEGIN:VCARD" :: str "VERSION:3.0" :: middle ++ [str "END:VCARD"]).
Proof.
  intros H. apply hasContent_fieldLines in H. split.
  - rewrite buildVCard_fieldLines.
    destruct (fieldLines r) as [|l ls]; [contradiction|].
    exists (join [LF] (l :: ls)).
    change (join [LF] (str "BEGIN:VCARD" :: str "VERSION:3.0" ::
                       (l :: ls) ++ [str "END:VCARD"]))
      with (str "BEGIN:VCARD" ++ [LF] ++ str "VERSION:3.0" ++ [LF] ++
            join [LF] ((l :: ls) ++ [str "END:VCARD"])).
    rewrite join_snoc. reflexivity.
  - exists (flat_map textLines (fieldLines r)). split.
    + destruct (fieldLines r) as [|l ls]; [contradiction|].
      cbn [flat_map]. intros E. apply app_eq_nil in E as [E _].
      exact (textLines_nonempty l E).
    + now apply textLines_buildVCard_gen.
Qed.

Lemma buildVCard_framing_witness :
  let r := mkArgs [] (str "a@b.c") [] [] other [] [] [] [] (str "two
lines") in
  (exists body,
      buildVCard r =
      str "BEGIN:VCARD" ++ [LF] ++ str "VERSION:3.0" ++ [LF] ++
      body ++ [LF] ++ str "END:VCARD") /\
  (exists middle,
      middle <> [] /\
      textLines (buildVCard r) =
      str "BEGIN:VCARD" :: str "VERSION:3.0" :: middle ++ [str "END:VCARD"]).
Proof.
  exact (buildVCard_framing
           (mkArgs [] (str "a@b.c") [] [] other [] [] [] [] (str "two
lines"))
           eq_refl).
Defined.

(** C2, as stated, fails for the phone list: a record whose only field is
    a phone list of two numbers has exactly one non-empty field, and its
    output holds two property lines between the framing lines. *)
Lemma single_field_two_phone_lines :
  let r := mkArgs [] [] (parsePhoneNumbers (str "1,2")) [] home [] [] [] [] [] in
  nonEmptyFieldCount r = 1%nat /\
  textLines (buildVCard r) =
    [str "BEGIN:VCARD"; str "VERSION:3.0";
     str "TEL;TYPE=CELL:1"; str "TEL;TYPE=CELL:2"; str "END:VCARD"] /\
  ~ (exists line,
        textLines (buildVCard r) =
        [str "BEGIN:VCARD"; str "VERSION:3.0"; line; str "END:VCARD"]).
Proof.
  cbv zeta. split; [reflexivity|]. split; [vm_compute; reflexivity|].
  intros [line E]. vm_compute in E. discriminate E.
Qed.

Ltac only_field :=
  split;
  [ discriminate
  | first [ reflexivity
          | unfold fieldLines, optLine;
            cbn [truthy app map VCard.fullName VCard.email VCard.phones
                 VCard.address VCard.company VCard.jobTitle VCard.birthday
                 VCard.website VCard.notes];
            rewrite ?app_nil_r; reflexivity ] ].

Ltac pick_field :=
  first [ only_field | left; only_field | right; pick_field ].

(** C2, amended: for every record with exactly one non-empty field (a
    birthday being free of line feeds), the output is made of the framing
    lines BEGIN:VCARD, VERSION:3.0 and END:VCARD around the property lines
    of that field, and of nothing else: one line for a string field, one
    TEL;TYPE=CELL line per number for the phone list. *)
Theorem single_field_lines (r : BuildVCardArgs) :
  nonEmptyFieldCount r = 1%nat ->
  noLF (birthday r) = true ->
  exists props,
    textLines (buildVCard r) =
      str "BEGIN:VCARD" :: str "VERSION:3.0" :: props ++ [str "END:VCARD"] /\
    ((fullName r <> [] /\ props = [str "FN:" ++ escapeValue (fullName r)]) \/
     (company r <> [] /\ props = [str "ORG:" ++ escapeValue (company r)]) \/
     (jobTitle r <> [] /\ props = [str "TITLE:" ++ escapeValue (jobTitle r)]) \/
     (phones r <> [] /\
      props = map (fun number => str "TEL;TYPE=CELL:" ++ escapeValue number)
                  (phones r)) \/
     (email r <> [] /\
      props = [str "EMAIL;TYPE=INTERNET:" ++ escapeValue (email r)]) \/
     (address r <> [] /\
      props = [str "ADR" ++ typePrefix (addressType r) ++ str ":;;" ++
               escapeValue (address r) ++ str ";;;;"]) \/
     (birthday r <> [] /\ props = [str "BDAY:" ++ birthday r]) \/
     (website r <> [] /\ props = [str "URL:" ++ escapeValue (website r)]) \/
     (notes r <> [] /\ props = [str "NOTE:" ++ escapeValue (notes r)])).
Proof.
  intros Hone Hb. exists (fieldLines r). split.
  - apply textLines_buildVCard; [exact Hb|].
    intros E. apply fieldLines_nil in E.
    destruct E as (E1 & E2 & E3 & E4 & E5 & E6 & E7 & E8 & E9).
    unfold nonEmptyFieldCount in Hone.
    rewrite E1, E2, E3, E4, E5, E6, E7, E8, E9 in Hone. discriminate Hone.
  - clear Hb. destruct r as [fn em ph ad ty co jt bd ws nt].
    unfold nonEmptyFieldCount, present in Hone. cbn [VCard.fullName VCard.email
      VCard.phones VCard.address VCard.addressType VCard.company VCard.jobTitle
      VCard.birthday VCard.website VCard.notes] in *.
    destruct fn, co, jt, ph, em, ad, bd, ws, nt;
      cbn [truthy isNil Nat.add] in Hone; try discriminate Hone;
      pick_field.
Qed.

Lemma single_field_lines_witness :
  let r := mkArgs [] [] [] (str "1 Main St, City") work [] [] [] [] [] in
  exists props,
    textLines (buildVCard r) =
      str "BEGIN:VCARD" :: str "VERSION:3.0" :: props ++ [str "END:VCARD"] /\
    ((fullName r <> [] /\ props = [str "FN:" ++ escapeValue (fullName r)]) \/
     (company r <> [] /\ props = [str "ORG:" ++ escapeValue (company r)]) \/
     (jobTitle r <> [] /\ props = [str "TITLE:" ++ escapeValue (jobTitle r)]) \/
     (phones r <> [] /\
      props = map (fun number => str "TEL;TYPE=CELL:" ++ escapeValue number)
                  (phones r)) \/
     (email r <> [] /\
      props = [str "EMAIL;TYPE=INTERNET:" ++ escapeValue (email r)]) \/
     (address r <> [] /\
      props = [str "ADR" ++ typePrefix (addressType r) ++ str ":;;" ++
               escapeValue (address r) ++ str ";;;;"]) \/
     (birthday r <> [] /\ props = [str "BDAY:" ++ birthday r]) \/
     (website r <> [] /\ props = [str "URL:" ++ escapeValue (website r)]) \/
     (notes r <> [] /\ props = [str "NOTE:" ++ escapeValue (notes r)])).
Proof.
  exact (single_field_lines
           (mkArgs [] [] [] (str "1 Main St, City") work [] [] [] [] [])
           eq_refl eq_refl).
Defined.

(** C9: [buildVCard] returns the empty string exactly when every string
    field is empty and there is no phone number; so a record whose only
    content is a phone input made of separators and white space, which
    parses to no phone number at all, gives the empty string too. *)
Theorem buildVCard_empty_iff :
  (forall r,
      buildVCard r = [] <->
      fullName r = [] /\ email r = [] /\ phones r = [] /\ address r = [] /\
      company r = [] /\ jobTitle r = [] /\ birthday r = [] /\
      website r = [] /\ notes r = []) /\
  (forall input t,
      forallb (fun c => isSeparator c || isWhiteSpace c) input = true ->
      parsePhoneNumbers input = [] /\
      buildVCard (mkArgs [] [] (parsePhoneNumbers input) [] t [] [] [] [] []) = []).
Proof.
  split.
  - intros r. rewrite <- fieldLines_nil, buildVCard_fieldLines.
    destruct (fieldLines r) as [|l ls]; [tauto|].
    split; [|discriminate].
    destruct (join_begins (str "BEGIN:VCARD")
                (str "VERSION:3.0" :: (l :: ls) ++ [str "END:VCARD"]))
      as (tail & ->).
    discriminate.
  - intros input t H. rewrite (parsePhoneNumbers_blank input H).
    split; reflexivity.
Qed.

Lemma buildVCard_empty_iff_witness :
  parsePhoneNumbers (str " ; ,,  ;") = [] /\
  buildVCard (mkArgs [] [] (parsePhoneNumbers (str " ; ,,  ;")) [] home
                     [] [] [] [] []) = [].
Proof.
  exact (proj2 buildVCard_empty_iff (str " ; ,,  ;") home eq_refl).
Defined.

(** C10: every entry that [parsePhoneNumbers] returns is non-empty, holds
    no newline, comma or semicolon, and neither starts nor ends with a
    white-space character. *)
Theorem parsePhoneNumbers_entries (input : jsstring) :
  Forall (fun entry =>
            entry <> [] /\
            ~ In LF entry /\ ~ In COMMA entry /\ ~ In SEMICOLON entry /\
            (exists a, firstChar entry = Some a /\ isWhiteSpace a = false) /\
            (exists z, lastChar entry = Some z /\ isWhiteSpace z = false))
         (parsePhoneNumbers input).
Proof.
  rewrite Forall_forall. intros entry Hin.
  destruct (parsePhoneNumbers_entry input entry Hin)
    as (Hne & piece & -> & Hp & _).
  assert (Hsep : forall c, In c (trim piece) -> isSeparator c = false).
  { intros c Hc. apply trim_incl in Hc.
    rewrite forallb_forall in Hp. specialize (Hp c Hc).
    now apply negb_true_iff in Hp. }
  split; [exact Hne|].
  repeat split.
  - intros H. apply Hsep, isSeparator_chars in H. tauto.
  - intros H. apply Hsep, isSeparator_chars in H. tauto.
  - intros H. apply Hsep, isSeparator_chars in H. tauto.
  - destruct (trim piece) as [|a rest] eqn:E; [contradiction|].
    exists a. split; [reflexivity|].
    apply (trim_first piece). now rewrite E.
  - destruct (lastChar (trim piece)) as [z|] eqn:E.
    + exists z. split; [reflexivity|]. now apply (trim_last piece).
    + exfalso. apply Hne. unfold lastChar in E.
      destruct (rev (trim piece)) as [|z rest] eqn:Er; [|discriminate].
      apply (f_equal (@rev char)) in Er. now rewrite rev_involutive in Er.
Qed.

(* ================================================================= *)
(** ** The empty-input guard *)

(** C8: with every field empty no QR value is produced.  On the four-field
    page [generateQR] raises its alert and leaves the state as it was, and
    it raises the alert in that case only; otherwise it stores the filled
    template, which is shown.  On the ten-field page the vCard of the blank
    form is empty, so the QR code is not rendered, the export buttons are
    disabled and the export handlers do nothing; no export handler ever
    raises an alert. *)
Theorem empty_input_guard :
  (forall qr,
      Legacy.generateQR (Legacy.mkState [] [] [] [] qr) =
      (Legacy.mkState [] [] [] [] qr,
       [Alert (str "Please fill in at least one field.")])) /\
  (forall st,
      existsb isAlert (snd (Legacy.generateQR st)) = true <->
      Legacy.name st = [] /\ Legacy.phone st = [] /\
      Legacy.address st = [] /\ Legacy.birthday st = []) /\
  (forall st,
      existsb isAlert (snd (Legacy.generateQR st)) = false ->
      Legacy.qrValue (fst (Legacy.generateQR st)) = Legacy.template st /\
      Legacy.qrShown (fst (Legacy.generateQR st)) = true) /\
  (forall t more copied env,
      let st := Page.mkState [] [] [] [] t [] [] [] [] [] more copied in
      Page.vCard st = [] /\
      Page.hasContactInfo st = false /\
      Page.qrRendered st = false /\
      Page.exportDisabled st = true /\
      Page.handleCopy env st = (st, []) /\
      Page.handleDownloadVCard env st = (st, []) /\
      Page.handleDownloadQr env st = (st, [])) /\
  (forall env st,
      existsb isAlert (snd (Page.handleCopy env st)) = false /\
      existsb isAlert (snd (Page.handleDownloadVCard env st)) = false /\
      existsb isAlert (snd (Page.handleDownloadQr env st)) = false).
Proof.
  split; [reflexivity|]. split; [|split; [|split]].
  - intros st. rewrite <- Legacy_allBlank_fields.
    destruct (Legacy.allBlank st) eqn:E.
    + unfold Legacy.generateQR. rewrite E. cbn. tauto.
    + rewrite (Legacy_generateQR_filled st E). cbn. split; discriminate.
  - intros st H. destruct (Legacy.allBlank st) eqn:E.
    + unfold Legacy.generateQR in H. rewrite E in H. discriminate H.
    + rewrite (Legacy_generateQR_filled st E). split; reflexivity.
  - intros t more copied env. cbv zeta. repeat split.
  - intros env st.
    unfold Page.handleCopy, Page.handleDownloadVCard, Page.handleDownloadQr.
    destruct (negb (Page.hasContactInfo st) || negb (Page.hasNavigator env)),
      (negb (Page.hasContactInfo st) || negb (Page.hasWindow env)),
      (Page.clipboard env), (negb (Page.qrSvgFound env)), (Page.imageLoads env);
      repeat split.
Qed.

Lemma empty_input_guard_witness :
  let st := Legacy.mkState (str "Ada") [] [] [] [] in
  Legacy.qrValue (fst (Legacy.generateQR st)) = Legacy.template st /\
  Legacy.qrShown (fst (Legacy.generateQR st)) = true.
Proof.
  exact (proj1 (proj2 (proj2 empty_input_guard))
               (Legacy.mkState (str "Ada") [] [] [] []) eq_refl).
Defined.

(* ================================================================= *)
(** ** The template of the four-field page *)

Lemma orElse_empty (a : jsstring) : orElse a [] = a.
Proof. destruct a; reflexivity. Qed.

(** Once a field is filled, [generateQR] stores the seven lines of its
    template: the FN, TEL, ADR and BDAY lines are there whether or not
    their field is empty, and the values are inserted as they are (here
    for values without a line feed). *)
Theorem Legacy_generateQR_lines (st : Legacy.State) :
  Legacy.allBlank st = false ->
  noLF (Legacy.name st) = true ->
  noLF (Legacy.phone st) = true ->
  noLF (Legacy.address st) = true ->
  noLF (Legacy.birthday st) = true ->
  textLines (Legacy.qrValue (fst (Legacy.generateQR st))) =
    [str "BEGIN:VCARD"; str "VERSION:3.0";
     str "FN:" ++ Legacy.name st;
     str "TEL:" ++ Legacy.phone st;
     str "ADR:;;" ++ Legacy.address st ++ str ";;;;";
     str "BDAY:" ++ Legacy.birthday st;
     str "END:VCARD"].
Proof.
  intros Hfilled Hn Hp Ha Hb.
  rewrite (Legacy_generateQR_filled st Hfilled).
  cbn [fst Legacy.setQrValue Legacy.qrValue].
  assert (E : Legacy.template st =
              join [LF] [str "BEGIN:VCARD"; str "VERSION:3.0";
                         str "FN:" ++ Legacy.name st;
                         str "TEL:" ++ Legacy.phone st;
                         str "ADR:;;" ++ Legacy.address st ++ str ";;;;";
                         str "BDAY:" ++ Legacy.birthday st;
                         str "END:VCARD"]).
  { unfold Legacy.template. rewrite !orElse_empty.
    cbn [join]. rewrite <- !app_assoc. reflexivity. }
  rewrite E, textLines_join.
  apply flat_map_textLines_noLF.
  cbn [forallb]. rewrite !noLF_app, Hn, Hp, Ha, Hb. reflexivity.
Qed.

Lemma Legacy_generateQR_lines_witness :
  let st := Legacy.mkState (str "Ada") [] [] [] [] in
  textLines (Legacy.qrValue (fst (Legacy.generateQR st))) =
    [str "BEGIN:VCARD"; str "VERSION:3.0";
     str "FN:" ++ Legacy.name st;
     str "TEL:" ++ Legacy.phone st;
     str "ADR:;;" ++ Legacy.address st ++ str ";;;;";
     str "BDAY:" ++ Legacy.birthday st;
     str "END:VCARD"].
Proof.
  exact (Legacy_generateQR_lines (Legacy.mkState (str "Ada") [] [] [] [])
           eq_refl eq_refl eq_refl eq_refl eq_refl).
Defined.

(* ================================================================= *)
(** ** More on escaping *)

Lemma escapeValue_cons (c : char) (s : jsstring) :
  escapeValue (c :: s) = escapeChar c ++ escapeValue s.
Proof. rewrite !escapeValue_chars. reflexivity. Qed.

Lemma isSpecial_cases (c : char) :
  isSpecial c = true ->
  c = BACKSLASH \/ c = LF \/ c = SEMICOLON \/ c = COMMA.
Proof.
  unfold isSpecial. rewrite !orb_true_iff, !N.eqb_eq. tauto.
Qed.

Lemma escapeChar_plain (c : char) : isSpecial c = false -> escapeChar c = [c].
Proof.
  unfold isSpecial, escapeChar. rewrite !orb_false_iff.
  intros [[[-> ->] ->] ->]. reflexivity.
Qed.

Lemma escapeChar_special (c : char) :
  isSpecial c = true ->
  exists d, escapeChar c = [BACKSLASH; d] /\ isEscapeCode d = true /\
            (if d =? 110 then LF else d) = c.
Proof.
  intros H. apply isSpecial_cases in H as [-> | [-> | [-> | ->]]].
  - exists BACKSLASH. repeat split.
  - exists 110. repeat split.
  - exists SEMICOLON. repeat split.
  - exists COMMA. repeat split.
Qed.

Lemma isSpecial_not_backslash (c : char) :
  isSpecial c = false -> (c =? BACKSLASH) = false.
Proof. unfold isSpecial. rewrite !orb_false_iff. tauto. Qed.

Lemma wellEscaped_escapeChar (c : char) (rest : jsstring) :
  wellEscaped (escapeChar c ++ rest) = wellEscaped rest.
Proof.
  destruct (isSpecial c) eqn:Hc.
  - destruct (escapeChar_special c Hc) as (d & -> & Hd & _).
    cbn [app wellEscaped]. now rewrite N.eqb_refl, Hd.
  - rewrite (escapeChar_plain c Hc). cbn [app wellEscaped].
    now rewrite (isSpecial_not_backslash c Hc), Hc.
Qed.

(** What [escapeValue] returns is escaped text: no line feed, semicolon or
    comma is left bare, and every backslash in it starts an escape. *)
Theorem escapeValue_wellEscaped (s : jsstring) :
  wellEscaped (escapeValue s) = true.
Proof.
  induction s as [|c s IH]; [reflexivity|].
  now rewrite escapeValue_cons, wellEscaped_escapeChar.
Qed.

Lemma escape_unescape_bounded (n : nat) :
  forall t, (List.length t <= n)%nat ->
            wellEscaped t = true -> escapeValue (unescapeValue t) = t.
Proof.
  induction n as [|n IH]; intros t Hn Hw.
  - destruct t; [reflexivity|cbn in Hn; lia].
  - destruct t as [|c t]; [reflexivity|].
    cbn [wellEscaped unescapeValue] in *.
    destruct (N.eqb_spec c BACKSLASH) as [->|Hc].
    + destruct t as [|d u]; [discriminate|].
      apply andb_prop in Hw as [Hd Hu].
      rewrite escapeValue_cons, (IH u) by (cbn in Hn; lia || exact Hu).
      unfold isEscapeCode in Hd. rewrite !orb_true_iff, !N.eqb_eq in Hd.
      destruct Hd as [[[-> | ->] | ->] | ->]; reflexivity.
    + apply andb_prop in Hw as [Hs Ht]. apply negb_true_iff in Hs.
      rewrite escapeValue_cons, (escapeChar_plain c Hs), (IH t);
        [reflexivity | cbn in Hn; lia | exact Ht].
Qed.

(** On escaped text the decoder is undone by [escapeValue]: with C6,
    [escapeValue] and [unescapeValue] are inverse bijections between all
    strings and the escaped texts. *)
Theorem escape_unescape (t : jsstring) :
  wellEscaped t = true -> escapeValue (unescapeValue t) = t.
Proof. apply (escape_unescape_bounded (List.length t)). reflexivity. Qed.

Lemma escape_unescape_witness :
  escapeValue (unescapeValue (str "a\\b\nc\;d\,e")) = str "a\\b\nc\;d\,e".
Proof. exact (escape_unescape (str "a\\b\nc\;d\,e") eq_refl). Defined.

Lemma escapeChar_length (c : char) :
  List.length (escapeChar c) = if isSpecial c then 2%nat else 1%nat.
Proof.
  destruct (isSpecial c) eqn:Hc.
  - now destruct (escapeChar_special c Hc) as (d & -> & _).
  - now rewrite (escapeChar_plain c Hc).
Qed.

Lemma escapeValue_length_special (s : jsstring) :
  List.length (escapeValue s) =
  (List.length s + List.length (filter isSpecial s))%nat.
Proof.
  induction s as [|c s IH]; [reflexivity|].
  rewrite escapeValue_cons, length_app, escapeChar_length, IH.
  cbn [filter List.length]. destruct (isSpecial c); cbn [List.length]; lia.
Qed.

(** Escaping adds one character per backslash, line feed, semicolon and
    comma, and so leaves a string as it is exactly when it holds none of
    them. *)
Theorem escapeValue_growth (s : jsstring) :
  List.length (escapeValue s) =
    (List.length s + List.length (filter isSpecial s))%nat /\
  (escapeValue s = s <-> existsb isSpecial s = false).
Proof.
  split; [apply escapeValue_length_special|]. split.
  - intros E. pose proof (escapeValue_length_special s) as L.
    rewrite E in L.
    assert (Hf : filter isSpecial s = [])
      by (apply length_zero_iff_nil; lia).
    clear E L. induction s as [|c s IH]; [reflexivity|].
    cbn [filter existsb] in *. destruct (isSpecial c); [discriminate|].
    now apply IH.
  - induction s as [|c s IH]; [reflexivity|].
    cbn [existsb]. rewrite orb_false_iff. intros [Hc Hs].
    now rewrite escapeValue_cons, (escapeChar_plain c Hc), (IH Hs).
Qed.

(** Escaping a text piece by piece gives the escaping of the whole. *)
Theorem escapeValue_concat (s t : jsstring) :
  escapeValue (s ++ t) = escapeValue s ++ escapeValue t.
Proof.
  induction s as [|c s IH]; [reflexivity|].
  cbn [app]. now rewrite !escapeValue_cons, IH, app_assoc.
Qed.

(* ================================================================= *)
(** ** More on [parsePhoneNumbers] *)

(** The entries read off a scan; [parsePhoneNumbers] is the scan started
    outside a match with an empty piece. *)
Lemma entries_in_match (s : jsstring) :
  filter truthy (map trim (splitScan isSeparator true [] s)) =
  parsePhoneNumbers s.
Proof.
  unfold parsePhoneNumbers, split.
  destruct s as [|c t]; [reflexivity|].
  cbn [splitScan]. destruct (isSeparator c); reflexivity.
Qed.

Lemma entries_over_separator (c : char) (a b piece : jsstring) :
  isSeparator c = true ->
  filter truthy (map trim (splitScan isSeparator false piece (a ++ c :: b))) =
  filter truthy (map trim (splitScan isSeparator false piece a)) ++
  parsePhoneNumbers b.
Proof.
  intros Hc. revert piece.
  induction a as [|d a IH]; intros piece; cbn [app splitScan].
  - rewrite Hc. cbn [map filter]. rewrite entries_in_match.
    destruct (truthy (trim piece)); reflexivity.
  - destruct (isSeparator d).
    + cbn [map filter]. rewrite !entries_in_match.
      unfold parsePhoneNumbers, split. rewrite (IH []).
      destruct (truthy (trim piece)); reflexivity.
    + apply IH.
Qed.

Lemma parsePhoneNumbers_app_separator (c : char) (a b : jsstring) :
  isSeparator c = true ->
  parsePhoneNumbers (a ++ c :: b) =
  parsePhoneNumbers a ++ parsePhoneNumbers b.
Proof. intros Hc. now apply entries_over_separator. Qed.

(** Parsing distributes over a separator: the numbers of two texts put
    together with a newline, comma or semicolon between them are the
    numbers of the first followed by the numbers of the second. *)
Theorem parsePhoneNumbers_separator (c : char) (a b : jsstring) :
  isSeparator c = true ->
  parsePhoneNumbers (a ++ c :: b) =
  parsePhoneNumbers a ++ parsePhoneNumbers b.
Proof. intros Hc. now apply parsePhoneNumbers_app_separator. Qed.

Lemma parsePhoneNumbers_separator_witness :
  parsePhoneNumbers (str "1, 2" ++ SEMICOLON :: str " 3 ") =
  parsePhoneNumbers (str "1, 2") ++ parsePhoneNumbers (str " 3 ").
Proof.
  exact (parsePhoneNumbers_separator SEMICOLON (str "1, 2") (str " 3 ") eq_refl).
Defined.

Lemma trimStart_fixed (s : jsstring) :
  (forall c, firstChar s = Some c -> isWhiteSpace c = false) ->
  trimStart s = s.
Proof.
  destruct s as [|c s]; [reflexivity|].
  intros H. apply trimStart_kept. now apply H.
Qed.

Lemma trim_idempotent (s : jsstring) : trim (trim s) = trim s.
Proof.
  unfold trim at 1.
  rewrite (trimStart_fixed (trim s) (trim_first s)).
  unfold trimEnd.
  rewrite (trimStart_fixed (rev (trim s)) (trim_last s)).
  apply rev_involutive.
Qed.

Lemma split_no_separator (sep : char -> bool) (p : jsstring) :
  forallb (fun c => negb (sep c)) p = true -> split sep p = [p].
Proof.
  induction p as [|c p IH]; [reflexivity|].
  cbn [forallb]. intros H. apply andb_prop in H as [Hc Hp].
  apply negb_true_iff in Hc.
  now rewrite (split_other sep c p Hc), (IH Hp).
Qed.

(** A text that is already an entry parses to itself. *)
Lemma parsePhoneNumbers_single (p : jsstring) :
  p <> [] ->
  forallb (fun c => negb (isSeparator c)) p = true ->
  trim p = p ->
  parsePhoneNumbers p = [p].
Proof.
  intros Hne Hp Ht. unfold parsePhoneNumbers.
  rewrite (split_no_separator isSeparator p Hp). cbn [map filter].
  rewrite Ht. destruct p; [contradiction|reflexivity].
Qed.

Lemma parsePhoneNumbers_join (c : char) (ps : list jsstring) :
  isSeparator c = true ->
  Forall (fun p => parsePhoneNumbers p = [p]) ps ->
  parsePhoneNumbers (join [c] ps) = ps.
Proof.
  intros Hc H. induction H as [|p ps Hp Hps IH]; [reflexivity|].
  destruct ps as [|q ps]; [exact Hp|].
  change (join [c] (p :: q :: ps)) with (p ++ c :: join [c] (q :: ps)).
  now rewrite (parsePhoneNumbers_app_separator c p _ Hc), IH, Hp.
Qed.

(** Parsing is a normalisation: the entries, joined by any one of the
    separators and parsed again, come back unchanged. *)
Theorem parsePhoneNumbers_reparse (c : char) (input : jsstring) :
  isSeparator c = true ->
  parsePhoneNumbers (join [c] (parsePhoneNumbers input)) =
  parsePhoneNumbers input.
Proof.
  intros Hc. apply parsePhoneNumbers_join; [exact Hc|].
  rewrite Forall_forall. intros entry Hin.
  destruct (parsePhoneNumbers_entry input entry Hin)
    as (Hne & piece & -> & Hp & _).
  apply parsePhoneNumbers_single; [exact Hne| |apply trim_idempotent].
  rewrite forallb_forall in *. intros d Hd. apply Hp. now apply trim_incl.
Qed.

Lemma parsePhoneNumbers_reparse_witness :
  parsePhoneNumbers (join [LF] (parsePhoneNumbers (str " 1 2,;3 , "))) =
  parsePhoneNumbers (str " 1 2,;3 , ").
Proof.
  exact (parsePhoneNumbers_reparse LF (str " 1 2,;3 , ") eq_refl).
Defined.

Lemma Segments_cover (sep : char -> bool) (s : jsstring)
      (segs : list jsstring) :
  Segments sep s segs ->
  forall c, In c s -> sep c = false -> exists p, In p segs /\ In c p.
Proof.
  induction 1 as [p Hp | p run t rest Hp Hrun Hall Hfirst Hrest IH];
    intros c Hc Hs.
  - exists p. split; [now left|exact Hc].
  - rewrite !in_app_iff in Hc. destruct Hc as [Hc | [Hc | Hc]].
    + exists p. split; [now left|exact Hc].
    + rewrite forallb_forall in Hall. rewrite (Hall c Hc) in Hs. discriminate.
    + destruct (IH c Hc Hs) as (q & Hq & Hcq). exists q. split; [now right|exact Hcq].
Qed.

Lemma trim_keeps (s : jsstring) (c : char) :
  In c s -> isWhiteSpace c = false -> In c (trim s).
Proof.
  destruct (trim_middle s) as (w1 & w2 & E & H1 & H2).
  intros Hc Hw. rewrite E, !in_app_iff in Hc.
  rewrite forallb_forall in H1, H2.
  destruct Hc as [Hc | [Hc | Hc]]; [|exact Hc|].
  - rewrite (H1 c Hc) in Hw. discriminate.
  - rewrite (H2 c Hc) in Hw. discriminate.
Qed.

Lemma parsePhoneNumbers_nil (input : jsstring) :
  parsePhoneNumbers input = [] <->
  forallb (fun c => isSeparator c || isWhiteSpace c) input = true.
Proof.
  split; [|apply parsePhoneNumbers_blank].
  intros E. rewrite forallb_forall. intros c Hc.
  destruct (isSeparator c) eqn:Hs; [reflexivity|].
  destruct (isWhiteSpace c) eqn:Hw; [reflexivity|]. exfalso.
  destruct (Segments_cover _ _ _ (split_Segments isSeparator input) c Hc Hs)
    as (p & Hp & Hcp).
  pose proof (trim_keeps p c Hcp Hw) as Hin.
  assert (Hentry : In (trim p) (parsePhoneNumbers input)).
  { unfold parsePhoneNumbers. rewrite filter_In. split.
    - now apply in_map.
    - destruct (trim p); [contradiction|reflexivity]. }
  rewrite E in Hentry. contradiction.
Qed.

(** The phone input holds no number exactly when it is made of
    separators and white space only: any other character ends up in an
    entry. *)
Theorem parsePhoneNumbers_nothing_iff (input : jsstring) :
  (parsePhoneNumbers input = [] <->
   forallb (fun c => isSeparator c || isWhiteSpace c) input = true) /\
  (forall c,
      In c input -> isSeparator c = false -> isWhiteSpace c = false ->
      exists entry, In entry (parsePhoneNumbers input) /\ In c entry).
Proof.
  split; [apply parsePhoneNumbers_nil|].
  intros c Hc Hs Hw.
  destruct (Segments_cover _ _ _ (split_Segments isSeparator input) c Hc Hs)
    as (p & Hp & Hcp).
  pose proof (trim_keeps p c Hcp Hw) as Hin.
  exists (trim p). split; [|exact Hin].
  unfold parsePhoneNumbers. rewrite filter_In. split.
  - now apply in_map.
  - destruct (trim p); [contradiction|reflexivity].
Qed.

(* ================================================================= *)
(** ** Reading the output back *)

Lemma lineValue_prefix (p v : jsstring) :
  lineValue (List.length p) (p ++ v) = v.
Proof. unfold lineValue. induction p as [|c p IH]; [reflexivity|exact IH]. Qed.

Lemma decode_optLine (p v : jsstring) :
  map (fun l => unescapeValue (lineValue (List.length p) l))
      (optLine v (p ++ escapeValue v)) =
  if truthy v then [v] else [].
Proof.
  unfold optLine. destruct (truthy v); [|reflexivity].
  cbn [map]. now rewrite lineValue_prefix, unescape_escape.
Qed.

Lemma decode_telLines (ps : list jsstring) :
  map (fun l => unescapeValue
                  (lineValue (List.length (str "TEL;TYPE=CELL:")) l))
      (map telLine ps) = ps.
Proof.
  induction ps as [|n ps IH]; [reflexivity|].
  cbn [map]. rewrite IH. unfold telLine.
  now rewrite lineValue_prefix, unescape_escape.
Qed.

(** Every escaped field is read back from the lines of the card: the
    lines of a property name, cut after the name and decoded, give the
    value of the field (nothing for an empty field), and the TEL lines give
    the phone numbers in order. *)
Theorem vcardLines_decode (r : BuildVCardArgs) :
  let decode p :=
    map (fun l => unescapeValue (lineValue (List.length p) l))
        (filter (startsWith p) (vcardLines r)) in
  decode (str "FN:") = (if truthy (fullName r) then [fullName r] else []) /\
  decode (str "ORG:") = (if truthy (company r) then [company r] else []) /\
  decode (str "TITLE:") = (if truthy (jobTitle r) then [jobTitle r] else []) /\
  decode (str "TEL;TYPE=CELL:") = phones r /\
  decode (str "EMAIL;TYPE=INTERNET:") =
    (if truthy (email r) then [email r] else []) /\
  decode (str "URL:") = (if truthy (website r) then [website r] else []) /\
  decode (str "NOTE:") = (if truthy (notes r) then [notes r] else []).
Proof.
  cbv beta zeta.
  rewrite lines_FN, lines_ORG, lines_TITLE, lines_TEL, lines_EMAIL,
    lines_URL, lines_NOTE.
  rewrite !decode_optLine, decode_telLines. repeat split.
Qed.

Lemma componentsScan_escaped (v cur rest : jsstring) :
  componentsScan cur (escapeValue v ++ rest) =
  componentsScan (cur ++ escapeValue v) rest.
Proof.
  revert cur. induction v as [|c v IH]; intros cur.
  - cbn [app]. now rewrite app_nil_r.
  - rewrite escapeValue_cons, <- app_assoc.
    destruct (isSpecial c) eqn:Hc.
    + destruct (escapeChar_special c Hc) as (d & -> & _).
      cbn [app componentsScan]. rewrite N.eqb_refl, IH.
      now rewrite <- app_assoc.
    + rewrite (escapeChar_plain c Hc). cbn [app componentsScan].
      rewrite (isSpecial_not_backslash c Hc).
      assert (Hs : (c =? SEMICOLON) = false).
      { unfold isSpecial in Hc. rewrite !orb_false_iff in Hc. tauto. }
      rewrite Hs, IH. now rewrite <- app_assoc.
Qed.

(** The value of the ADR line always has the seven components of a vCard
    address, the address text being the third and the others empty:
    whatever the address holds, its semicolons are escaped and split
    nothing.  The third component decodes to the address. *)
Theorem adrLine_components (t : AddressType) (v : jsstring) :
  adrLine t v =
    (str "ADR" ++ typePrefix t ++ str ":") ++
    lineValue (List.length (str "ADR" ++ typePrefix t ++ str ":")) (adrLine t v) /\
  components
    (lineValue (List.length (str "ADR" ++ typePrefix t ++ str ":")) (adrLine t v)) =
    [[]; []; escapeValue v; []; []; []; []] /\
  map unescapeValue
    (components
       (lineValue (List.length (str "ADR" ++ typePrefix t ++ str ":"))
                  (adrLine t v))) =
    [[]; []; v; []; []; []; []].
Proof.
  assert (E : adrLine t v =
              (str "ADR" ++ typePrefix t ++ str ":") ++
              (str ";;" ++ escapeValue v ++ str ";;;;")).
  { unfold adrLine. rewrite <- !app_assoc. reflexivity. }
  rewrite E, lineValue_prefix. split; [reflexivity|].
  assert (C : components (str ";;" ++ escapeValue v ++ str ";;;;") =
              [[]; []; escapeValue v; []; []; []; []]).
  { unfold components.
    change (str ";;" ++ escapeValue v ++ str ";;;;")
      with (SEMICOLON :: SEMICOLON :: (escapeValue v ++ str ";;;;")).
    cbn [componentsScan].
    change (SEMICOLON =? BACKSLASH) with false.
    change (SEMICOLON =? SEMICOLON) with true. cbv iota.
    rewrite componentsScan_escaped. reflexivity. }
  rewrite C. split; [reflexivity|].
  cbn [map]. now rewrite unescape_escape.
Qed.

(* ================================================================= *)
(** ** The ten-field page at work *)

Lemma buildVCard_nil (r : BuildVCardArgs) :
  buildVCard r = [] <-> fieldLines r = [].
Proof.
  rewrite buildVCard_fieldLines.
  destruct (fieldLines r) as [|l ls]; [tauto|].
  split; [|discriminate].
  destruct (join_begins (str "BEGIN:VCARD")
              (str "VERSION:3.0" :: (l :: ls) ++ [str "END:VCARD"]))
    as (tail & ->).
  discriminate.
Qed.

Lemma buildVCard_framed (r : BuildVCardArgs) :
  buildVCard r <> [] ->
  exists body,
    buildVCard r =
    str "BEGIN:VCARD" ++ [LF] ++ str "VERSION:3.0" ++ [LF] ++
    body ++ [LF] ++ str "END:VCARD".
Proof.
  intros Hne. rewrite buildVCard_fieldLines in *.
  destruct (fieldLines r) as [|l ls]; [contradiction|].
  exists (join [LF] (l :: ls)).
  change (join [LF] (str "BEGIN:VCARD" :: str "VERSION:3.0" ::
                     (l :: ls) ++ [str "END:VCARD"]))
    with (str "BEGIN:VCARD" ++ [LF] ++ str "VERSION:3.0" ++ [LF] ++
          join [LF] ((l :: ls) ++ [str "END:VCARD"])).
  rewrite join_snoc. reflexivity.
Qed.

Lemma truthy_true (v : jsstring) : truthy v = true <-> v <> [].
Proof. destruct v; cbn; split; congruence. Qed.

Lemma strictEq_eq (a b : jsstring) : strictEq a b = true <-> a = b.
Proof.
  revert b. induction a as [|x a IH]; intros [|y b]; cbn;
    try (split; congruence).
  rewrite andb_true_iff, N.eqb_eq, IH. split.
  - intros [-> ->]. reflexivity.
  - intros [= -> ->]. split; reflexivity.
Qed.

Lemma Page_vCard_setLastCopiedValue (st : Page.State) (v : option jsstring) :
  Page.vCard (Page.setLastCopiedValue st v) = Page.vCard st.
Proof. reflexivity. Qed.

Lemma Page_hasCopiedCurrent_iff (st : Page.State) :
  Page.hasCopiedCurrent st = true <->
  Page.vCard st <> [] /\ Page.lastCopiedValue st = Some (Page.vCard st).
Proof.
  unfold Page.hasCopiedCurrent, Page.hasContactInfo.
  rewrite andb_true_iff, truthy_true.
  destruct (Page.lastCopiedValue st) as [v|].
  - rewrite strictEq_eq. split; intros [H1 H2]; (split; [exact H1|]); congruence.
  - split; intros [_ H]; discriminate H.
Qed.

(** The QR code is missing from the page exactly when the eight text
    fields are empty and the phone input is made of separators and white
    space only. *)
Theorem Page_no_contact_info_iff (st : Page.State) :
  Page.hasContactInfo st = false <->
  Page.fullName st = [] /\ Page.email st = [] /\ Page.address st = [] /\
  Page.company st = [] /\ Page.jobTitle st = [] /\ Page.birthday st = [] /\
  Page.website st = [] /\ Page.notes st = [] /\
  forallb (fun c => isSeparator c || isWhiteSpace c) (Page.phoneInput st) = true.
Proof.
  unfold Page.hasContactInfo, Page.vCard.
  rewrite truthy_false, buildVCard_nil, fieldLines_nil.
  cbn [VCard.fullName VCard.email VCard.phones VCard.address VCard.company
       VCard.jobTitle VCard.birthday VCard.website VCard.notes].
  rewrite parsePhoneNumbers_nil. tauto.
Qed.

(** An export handler acts only when there is contact information, never
    with an alert, and what it copies or saves is the vCard on the page,
    a text between BEGIN:VCARD, VERSION:3.0 and END:VCARD; the files are
    named after the full name, or "contact" when there is none. *)
Theorem export_effects (env : Page.Env) (st : Page.State) (e : Effect) :
  In e (snd (Page.handleCopy env st) ++
        snd (Page.handleDownloadVCard env st) ++
        snd (Page.handleDownloadQr env st)) ->
  Page.hasContactInfo st = true /\
  (exists body,
      Page.vCard st =
      str "BEGIN:VCARD" ++ [LF] ++ str "VERSION:3.0" ++ [LF] ++
      body ++ [LF] ++ str "END:VCARD") /\
  match e with
  | Alert _ => False
  | ClipboardWrite text => text = Page.vCard st
  | ConsoleError message => message = str "Failed to copy vCard"
  | DownloadFile fileName mime content =>
      fileName = orElse (Page.fullName st) (str "contact") ++ str ".vcf" /\
      mime = str "text/vcard" /\ content = Page.vCard st
  | DownloadImage fileName =>
      fileName = orElse (Page.fullName st) (str "contact") ++ str "-qr.png"
  end.
Proof.
  intros Hin.
  assert (Hinfo : Page.hasContactInfo st = true).
  { unfold Page.handleCopy, Page.handleDownloadVCard, Page.handleDownloadQr in Hin.
    destruct (Page.hasContactInfo st); [reflexivity|].
    cbn in Hin. contradiction. }
  split; [exact Hinfo|]. split.
  - apply buildVCard_framed. now apply truthy_true.
  - unfold Page.handleCopy, Page.handleDownloadVCard, Page.handleDownloadQr in Hin.
    rewrite Hinfo in Hin. cbn [negb orb] in Hin.
    destruct (Page.hasNavigator env), (Page.hasWindow env), (Page.clipboard env),
      (Page.qrSvgFound env), (Page.imageLoads env);
      cbn [negb snd app In] in Hin;
      repeat match goal with
        | H : _ \/ _ |- _ => destruct H as [H | H]
        | H : False |- _ => contradiction
        | H : _ = e |- _ => subst e
        end;
      repeat split.
Qed.

Lemma export_effects_witness :
  let st := Page.mkState [] (str "ada@example.com") [] [] home [] [] [] [] []
                         false None in
  let env := Page.mkEnv true true Page.ClipboardAccepts true true in
  Page.hasContactInfo st = true /\
  (exists body,
      Page.vCard st =
      str "BEGIN:VCARD" ++ [LF] ++ str "VERSION:3.0" ++ [LF] ++
      body ++ [LF] ++ str "END:VCARD") /\
  str "contact.vcf" = orElse (Page.fullName st) (str "contact") ++ str ".vcf" /\
  str "text/vcard" = str "text/vcard" /\
  Page.vCard st = Page.vCard st.
Proof.
  exact (export_effects
           (Page.mkEnv true true Page.ClipboardAccepts true true)
           (Page.mkState [] (str "ada@example.com") [] [] home [] [] [] [] []
                         false None)
           (DownloadFile (str "contact.vcf") (str "text/vcard")
              (Page.vCard
                 (Page.mkState [] (str "ada@example.com") [] [] home
                               [] [] [] [] [] false None)))
           (or_intror (or_introl eq_refl))).
Defined.

(** A copy that the clipboard accepts writes the vCard of the page, and
    from then on the button reads "Copied!" for exactly the states whose
    vCard is still the one copied: any edit that changes the card turns
    the label back, an edit that restores it brings the label back. *)
Theorem handleCopy_accepted (env : Page.Env) (st st' : Page.State) :
  Page.hasContactInfo st = true ->
  Page.hasNavigator env = true ->
  Page.clipboard env = Page.ClipboardAccepts ->
  Page.lastCopiedValue st' =
    Page.lastCopiedValue (fst (Page.handleCopy env st)) ->
  snd (Page.handleCopy env st) = [ClipboardWrite (Page.vCard st)] /\
  fst (Page.handleCopy env st) =
    Page.setLastCopiedValue st (Some (Page.vCard st)) /\
  Page.vCard (fst (Page.handleCopy env st)) = Page.vCard st /\
  Page.copyLabel (fst (Page.handleCopy env st)) = str "Copied!" /\
  (Page.copyLabel st' = str "Copied!" <-> Page.vCard st' = Page.vCard st).
Proof.
  intros Hinfo Hnav Hclip Hlast.
  unfold Page.handleCopy in *. rewrite Hinfo, Hnav, Hclip in *.
  cbn [negb orb fst snd] in *.
  assert (Hne : Page.vCard st <> []) by now apply truthy_true.
  assert (Hlabel : forall s, Page.copyLabel s = str "Copied!" <->
                             Page.hasCopiedCurrent s = true).
  { intros s. unfold Page.copyLabel.
    destruct (Page.hasCopiedCurrent s); split; (reflexivity || discriminate). }
  split; [reflexivity|]. split; [reflexivity|]. split; [reflexivity|]. split.
  - apply Hlabel, Page_hasCopiedCurrent_iff.
    rewrite Page_vCard_setLastCopiedValue. split; [exact Hne|reflexivity].
  - rewrite Hlabel, Page_hasCopiedCurrent_iff, Hlast.
    cbn [Page.setLastCopiedValue Page.lastCopiedValue]. split.
    + intros [_ [= E]]. now symmetry.
    + intros E. rewrite E. split; [exact Hne|reflexivity].
Qed.

Lemma handleCopy_accepted_witness :
  let env := Page.mkEnv true true Page.ClipboardAccepts true true in
  let st := Page.mkState (str "Ada") [] [] [] home [] [] [] [] [] false None in
  let st' := Page.mkState (str "Ada L") [] [] [] home [] [] [] [] [] false
                          (Some (Page.vCard st)) in
  snd (Page.handleCopy env st) = [ClipboardWrite (Page.vCard st)] /\
  fst (Page.handleCopy env st) =
    Page.setLastCopiedValue st (Some (Page.vCard st)) /\
  Page.vCard (fst (Page.handleCopy env st)) = Page.vCard st /\
  Page.copyLabel (fst (Page.handleCopy env st)) = str "Copied!" /\
  (Page.copyLabel st' = str "Copied!" <-> Page.vCard st' = Page.vCard st).
Proof.
  exact (handleCopy_accepted
           (Page.mkEnv true true Page.ClipboardAccepts true true)
           (Page.mkState (str "Ada") [] [] [] home [] [] [] [] [] false None)
           (Page.mkState (str "Ada L") [] [] [] home [] [] [] [] [] false
              (Some (Page.vCard
                       (Page.mkState (str "Ada") [] [] [] home [] [] [] [] []
                                     false None))))
           eq_refl eq_refl eq_refl eq_refl).
Defined.

(** Where the browser has a navigator but no clipboard (the optional call
    [navigator.clipboard?.writeText] does nothing), [handleCopy] writes
    nothing and logs nothing, and yet records the vCard as copied: the
    button reads "Copied!". *)
Theorem handleCopy_without_clipboard (env : Page.Env) (st : Page.State) :
  Page.hasContactInfo st = true ->
  Page.hasNavigator env = true ->
  Page.clipboard env = Page.NoClipboard ->
  snd (Page.handleCopy env st) = [] /\
  Page.lastCopiedValue (fst (Page.handleCopy env st)) = Some (Page.vCard st) /\
  Page.copyLabel (fst (Page.handleCopy env st)) = str "Copied!".
Proof.
  intros Hinfo Hnav Hclip.
  unfold Page.handleCopy. rewrite Hinfo, Hnav, Hclip.
  cbn [negb orb fst snd]. repeat split.
  unfold Page.copyLabel.
  assert (H : Page.hasCopiedCurrent
                (Page.setLastCopiedValue st (Some (Page.vCard st))) = true).
  { apply Page_hasCopiedCurrent_iff. rewrite Page_vCard_setLastCopiedValue.
    split; [now apply truthy_true|reflexivity]. }
  now rewrite H.
Qed.

Lemma handleCopy_without_clipboard_witness :
  let env := Page.mkEnv true true Page.NoClipboard true true in
  let st := Page.mkState (str "Ada") [] [] [] home [] [] [] [] [] false None in
  snd (Page.handleCopy env st) = [] /\
  Page.lastCopiedValue (fst (Page.handleCopy env st)) = Some (Page.vCard st) /\
  Page.copyLabel (fst (Page.handleCopy env st)) = str "Copied!".
Proof.
  exact (handleCopy_without_clipboard
           (Page.mkEnv true true Page.NoClipboard true true)
           (Page.mkState (str "Ada") [] [] [] home [] [] [] [] [] false None)
           eq_refl eq_refl eq_refl).
Defined.

(** [resetForm] brings the page back to the state it starts in, whatever
    happened before: every field at its [useState] default, so no vCard, no
    QR code, the copy button reading "Copy vCard", and export handlers
    that do nothing. *)
Theorem resetForm_initial (env : Page.Env) (st : Page.State) :
  Page.resetForm st = Page.initialState /\
  Page.vCard (Page.resetForm st) = [] /\
  Page.qrRendered (Page.resetForm st) = false /\
  Page.copyLabel (Page.resetForm st) = str "Copy vCard" /\
  Page.handleCopy env (Page.resetForm st) = (Page.initialState, []) /\
  Page.handleDownloadVCard env (Page.resetForm st) = (Page.initialState, []) /\
  Page.handleDownloadQr env (Page.resetForm st) = (Page.initialState, []).
Proof. repeat split. Qed.

(* ================================================================= *)
(** ** The four-field page at work *)

Lemma Legacy_setQrValue_fields (st : Legacy.State) (v : jsstring) :
  Legacy.allBlank (Legacy.setQrValue st v) = Legacy.allBlank st /\
  Legacy.template (Legacy.setQrValue st v) = Legacy.template st.
Proof. split; reflexivity. Qed.

(** [generateQR] never touches the four input fields, and pressing the
    button a second time changes nothing: the state after two runs is the
    state after one, with the same effects. *)
Theorem Legacy_generateQR_idempotent (st : Legacy.State) :
  Legacy.name (fst (Legacy.generateQR st)) = Legacy.name st /\
  Legacy.phone (fst (Legacy.generateQR st)) = Legacy.phone st /\
  Legacy.address (fst (Legacy.generateQR st)) = Legacy.address st /\
  Legacy.birthday (fst (Legacy.generateQR st)) = Legacy.birthday st /\
  Legacy.generateQR (fst (Legacy.generateQR st)) =
    (fst (Legacy.generateQR st), snd (Legacy.generateQR st)).
Proof.
  destruct (Legacy.allBlank st) eqn:E.
  - unfold Legacy.generateQR. rewrite E. cbn [fst snd]. rewrite E.
    repeat split.
  - rewrite (Legacy_generateQR_filled st E). cbn [fst snd].
    repeat split.
    rewrite Legacy_generateQR_filled by exact E.
    reflexivity.
Qed.

(** A QR code outlives the data it was made from: once a code has been
    generated, emptying the four fields and pressing the button raises the
    alert, and the old code, still holding the old data, stays on the
    page. *)
Theorem Legacy_stale_qr (st : Legacy.State) :
  Legacy.allBlank st = false ->
  let generated := fst (Legacy.generateQR st) in
  let cleared :=
    Legacy.setBirthday
      (Legacy.setAddress
         (Legacy.setPhone (Legacy.setName generated []) []) []) [] in
  Legacy.generateQR cleared =
    (cleared, [Alert (str "Please fill in at least one field.")]) /\
  Legacy.qrValue cleared = Legacy.template st /\
  Legacy.qrShown cleared = true.
Proof.
  intros E. cbv zeta. rewrite (Legacy_generateQR_filled st E).
  cbn [fst]. repeat split.
Qed.

Lemma Legacy_stale_qr_witness :
  let st := Legacy.mkState (str "Ada") (str "1") [] [] [] in
  let generated := fst (Legacy.generateQR st) in
  let cleared :=
    Legacy.setBirthday
      (Legacy.setAddress
         (Legacy.setPhone (Legacy.setName generated []) []) []) [] in
  Legacy.generateQR cleared =
    (cleared, [Alert (str "Please fill in at least one field.")]) /\
  Legacy.qrValue cleared = Legacy.template st /\
  Legacy.qrShown cleared = true.
Proof.
  exact (Legacy_stale_qr (Legacy.mkState (str "Ada") (str "1") [] [] [])
           eq_refl).
Defined.
